(** * olapy: the cube configuration parser

    A shallow embedding of [olapy/core/mdx/tools/config_file_parser.py]
    (class [ConfigParser]) and the properties of its public operations:
    [xmla_authentication], [get_cubes_names], [construct_cubes], together
    with the path resolution in [_get_cube_path].

    Python values are modelled by the inductive [yaml] (what [yaml.load]
    can hand back for a plain document: scalars, sequences, mappings),
    exceptions by [exn], expression evaluation by the error monad [result]
    and the methods that touch the file system by [IO], a reader of the
    [world] that logs every file-system operation it performs.

    Outside the model: floating point and timestamp scalars, the bytes of
    a file (a file is given by what the decoder makes of it), and paths
    other than POSIX ones. *)

From stdpp Require Import gmap strings list fin_maps.
From Stdlib Require Import ZArith Ascii.

Set Warnings "-register-all".

Local Open Scope string_scope.
Local Open Scope list_scope.
Local Open Scope nat_scope.

(** ** Decoded documents *)

(** Scalars of a decoded document. These are exactly the hashable values,
    so they are also the keys of every Python [dict] of the program.
    Numbers are integers (floating point scalars are left out). *)
Inductive scalar : Type :=
  | SNone
  | SBool (b : bool)
  | SInt (z : Z)
  | SStr (s : string).

(** The tree returned by [yaml.load]. A mapping is a Python [dict]: its
    entries are kept in insertion order. *)
Inductive yaml : Type :=
  | YScalar (s : scalar)
  | YSeq (l : list yaml)
  | YMap (m : list (scalar * yaml)).

Abbreviation YStr s := (YScalar (SStr s)).
Abbreviation YBool b := (YScalar (SBool b)).

(** A Python [dict] (and the payload of an [OrderedDict]): entries in
    insertion order. *)
Definition dict : Type := list (scalar * yaml).

(** ** Exceptions *)

Inductive errno : Type := ENOENT | EISDIR | EACCES.

Inductive exn : Type :=
  | KeyError (key : string)
  | TypeError
  | ValueError (msg : string)
  | IOError (e : errno) (path : string)
  | YAMLError.

Inductive result (A : Type) : Type :=
  | Ok (a : A)
  | Raise (e : exn).
Arguments Ok {A} a.
Arguments Raise {A} e.

#[global] Instance result_ret : MRet result := fun A a => Ok a.
#[global] Instance result_bind : MBind result := fun A B f r =>
  match r with
  | Ok a => f a
  | Raise e => Raise e
  end.

(** ** Python dictionaries *)

(** Keys are compared with Python's [==] (and hashed accordingly):
    [True == 1] and [False == 0], everything else is equal to itself only. *)
Definition key_norm (k : scalar) : scalar :=
  match k with
  | SBool b => SInt (if b then 1 else 0)
  | _ => k
  end.

#[global] Instance scalar_eq_dec : EqDecision scalar.
Proof. solve_decision. Defined.

Definition py_eqb (a b : scalar) : bool :=
  bool_decide (key_norm a = key_norm b).

(** [d[k]] as a lookup: the entry whose key equals [k]. *)
Fixpoint dict_get (k : scalar) (d : dict) : option yaml :=
  match d with
  | [] => None
  | (k', v) :: d' => if py_eqb k' k then Some v else dict_get k d'
  end.

(** [k in d]. *)
Definition dict_mem (k : scalar) (d : dict) : bool :=
  match dict_get k d with
  | Some _ => true
  | None => false
  end.

(** [d[k] = v]: an existing entry keeps its place (and its key object) and
    gets the new value, a new key is appended. *)
Fixpoint dict_set (k : scalar) (v : yaml) (d : dict) : dict :=
  match d with
  | [] => [(k, v)]
  | (k', v') :: d' =>
      if py_eqb k' k then (k', v) :: d' else (k', v') :: dict_set k v d'
  end.

(** Hashing: sequences and mappings are unhashable. *)
Definition hashable (v : yaml) : result scalar :=
  match v with
  | YScalar s => Ok s
  | _ => Raise TypeError
  end.

(** ** Subscripts, iteration, [zip] *)

(** [v[k]] for a string literal [k]: a mapping without the key raises
    [KeyError(k)], every other value rejects a string subscript or is not
    subscriptable at all. *)
Definition getitem (v : yaml) (k : string) : result yaml :=
  match v with
  | YMap m =>
      match dict_get (SStr k) m with
      | Some x => Ok x
      | None => Raise (KeyError k)
      end
  | _ => Raise TypeError
  end.

(** [v[k1][k2]...] *)
Fixpoint getpath (v : yaml) (ks : list string) : result yaml :=
  match ks with
  | [] => Ok v
  | k :: ks' => x ← getitem v k; getpath x ks'
  end.

(** Characters of a string, each as a one-character string. *)
Fixpoint chars (s : string) : list yaml :=
  match s with
  | EmptyString => []
  | String c s' => YStr (String c EmptyString) :: chars s'
  end.

(** [iter(v)]: a list yields its elements, a dict its keys, a string its
    characters; the other scalars are not iterable. *)
Definition py_iter (v : yaml) : result (list yaml) :=
  match v with
  | YSeq l => Ok l
  | YMap m => Ok (YScalar <$> m.*1)
  | YScalar (SStr s) => Ok (chars s)
  | YScalar _ => Raise TypeError
  end.

(** [zip(a, b)] on the two element lists: stops at the shorter one. *)
Fixpoint zip {A B : Type} (a : list A) (b : list B) : list (A * B) :=
  match a, b with
  | x :: a', y :: b' => (x, y) :: zip a' b'
  | _, _ => []
  end.

(** [k in v] for a string literal [k]: key membership in a dict, element
    membership in a list, substring test in a string. *)
Fixpoint is_substring (p s : string) : bool :=
  String.prefix p s ||
  match s with
  | EmptyString => false
  | String _ s' => is_substring p s'
  end.

Definition yaml_is_str (k : string) (v : yaml) : bool :=
  match v with
  | YScalar (SStr s) => bool_decide (s = k)
  | _ => false
  end.

Definition py_contains (k : string) (v : yaml) : result bool :=
  match v with
  | YMap m => Ok (dict_mem (SStr k) m)
  | YSeq l => Ok (existsb (yaml_is_str k) l)
  | YScalar (SStr s) => Ok (is_substring k s)
  | YScalar _ => Raise TypeError
  end.

(** A generator is the list of the outcomes of its items, in the order in
    which the consumer asks for them: [dict(items)] and [OrderedDict(items)]
    take one item, hash its key, insert it, and go on; the first item that
    raises ends the construction. *)
Fixpoint dict_update (d : dict) (items : list (result (yaml * yaml)))
  : result dict :=
  match items with
  | [] => Ok d
  | item :: items' =>
      kv ← item;
      s ← hashable kv.1;
      dict_update (dict_set s kv.2 d) items'
  end.

(** A list comprehension [[f x for x in xs]]. *)
Fixpoint for_each {A B : Type} (f : A → result B) (xs : list A)
  : result (list B) :=
  match xs with
  | [] => Ok []
  | x :: xs' => y ← f x; ys ← for_each f xs'; Ok (y :: ys)
  end.

(** [try: c except BaseException: h]. Every exception of the model is a
    [BaseException]. *)
Definition try_except {A : Type} (c : result A) (h : result A) : result A :=
  match c with
  | Ok a => Ok a
  | Raise _ => h
  end.

(** ** The model classes *)

(** Either a plain [dict] (the literal [{}]) or a [collections.OrderedDict]. *)
Inductive mapping : Type :=
  | PlainDict (d : dict)
  | OrderedDict (d : dict).

Definition entries (m : mapping) : dict :=
  match m with
  | PlainDict d => d
  | OrderedDict d => d
  end.

(** Modelled from the spec: the classes [Facts], [Dimension] and [Cube] of
    [olapy/core/mdx/tools/models.py], which the parser only instantiates
    with keyword arguments. They are plain value objects holding the given
    fields (section 3 of the specification); the fields hold whatever the
    document holds. *)
Module Facts.
Record t : Type := make
  { table_name : yaml;
    keys : dict;
    measures : yaml }.
End Facts.

Module Dimension.
Record t : Type := make
  { name : yaml;
    displayName : yaml;
    columns : mapping }.
End Dimension.

Module Cube.
Record t : Type := make
  { name : yaml;
    source : yaml;
    facts : list Facts.t;
    dimensions : list Dimension.t }.
End Cube.

(** ** The outside world *)

(** What [yaml.load] makes of the bytes of a file: a document, or a
    [YAMLError] when they are not well-formed. *)
Inductive content : Type :=
  | Document (d : yaml)
  | Malformed.

Inductive node : Type :=
  | Directory
  | RegularFile (readable : bool) (c : content).

Record world : Type :=
  { environ : gmap string string;   (* os.environ *)
    home : string;                  (* expanduser("~") *)
    files : gmap string node }.     (* the file system, by path *)

(** The file-system operations a method performs, in order. *)
Inductive event : Type :=
  | EvIsFile (path : string)
  | EvOpen (path : string)
  | EvLoad (path : string)
  | EvClose (path : string).

Definition IO (A : Type) : Type := world → list event * result A.

Definition io_ret {A : Type} (a : A) : IO A := fun _ => ([], Ok a).

Definition io_raise {A : Type} (e : exn) : IO A := fun _ => ([], Raise e).

Definition io_lift {A : Type} (r : result A) : IO A := fun _ => ([], r).

Definition io_bind {A B : Type} (c : IO A) (f : A → IO B) : IO B :=
  fun w =>
    match c w with
    | (t, Ok a) => let (t', r) := f a w in (t ++ t', r)
    | (t, Raise e) => (t, Raise e)
    end.

Notation "'do' x <- c ; k" := (io_bind c (fun x => k))
  (at level 10, x name, c at level 100, k at level 200,
   format "'[v' 'do'  x  <-  c ; '/' k ']'").

Definition trace {A : Type} (r : list event * result A) : list event := r.1.
Definition outcome {A : Type} (r : list event * result A) : result A := r.2.

(** [os.path.isfile(path)] *)
Definition isfile (path : string) : IO bool :=
  fun w =>
    ([EvIsFile path],
     Ok match files w !! path with
        | Some (RegularFile _ _) => true
        | _ => false
        end).

(** An open file object: where it was opened and what it holds. *)
Record handle : Type := { h_path : string; h_content : content }.

(** [open(path)] for reading. *)
Definition open (path : string) (w : world) : result handle :=
  match files w !! path with
  | None => Raise (IOError ENOENT path)
  | Some Directory => Raise (IOError EISDIR path)
  | Some (RegularFile false _) => Raise (IOError EACCES path)
  | Some (RegularFile true c) => Ok {| h_path := path; h_content := c |}
  end.

(** [with open(path) as f: body]: when the file opens, the body runs and
    the file is closed whether the body returns or raises. *)
Definition with_open {A : Type} (path : string) (body : handle → IO A)
  : IO A :=
  fun w =>
    match open path w with
    | Raise e => ([EvOpen path], Raise e)
    | Ok f => let (t, r) := body f w in (EvOpen path :: t ++ [EvClose path], r)
    end.

(** [yaml.load(f)] *)
Definition yaml_load (f : handle) : IO yaml :=
  fun _ =>
    ([EvLoad (h_path f)],
     match h_content f with
     | Document d => Ok d
     | Malformed => Raise YAMLError
     end).

(** [os.path.join(a, *p)] of [posixpath]. *)
Definition starts_with_sep (s : string) : bool := String.prefix "/" s.

Fixpoint ends_with_sep (s : string) : bool :=
  match s with
  | EmptyString => false
  | String c EmptyString => bool_decide (c = "/"%char)
  | String _ s' => ends_with_sep s'
  end.

Fixpoint os_path_join (a : string) (p : list string) : string :=
  match p with
  | [] => a
  | b :: p' =>
      os_path_join
        (if starts_with_sep b then b
         else if bool_decide (a = "") || ends_with_sep a then a +:+ b
         else a +:+ "/" +:+ b)
        p'
  end.

(** ** [ConfigParser] *)

Record ConfigParser : Type :=
  { cube_path : string;
    file_name : string;
    web_config_file_name : string }.

Definition default_file_name : string := "cubes-config.yml".
Definition default_web_config_file_name : string := "web_cube_config.xml".

Definition _get_cube_path (w : world) : string :=
  let home_directory :=
    match environ w !! "OLAPY_PATH" with
    | Some v => v
    | None => home w
    end in
  os_path_join home_directory ["olapy-data"; "cubes"].

(** [ConfigParser(cube_path, file_name, web_config_file_name)]; [None] and
    the empty string are the falsy values of [cube_path]. *)
Definition __init__ (cube_path : option string)
    (file_name web_config_file_name : string) (w : world) : ConfigParser :=
  {| cube_path :=
       match cube_path with
       | Some p => if bool_decide (p = "") then _get_cube_path w else p
       | None => _get_cube_path w
       end;
     file_name := file_name;
     web_config_file_name := web_config_file_name |}.

Definition get_config_file_path (self : ConfigParser) : string :=
  os_path_join (cube_path self) [file_name self].

Definition config_file_exists (self : ConfigParser) : IO bool :=
  isfile (get_config_file_path self).

Definition xmla_authentication (self : ConfigParser) : IO yaml :=
  do found <- config_file_exists self;
  if found : bool then
    with_open (get_config_file_path self) (fun config_file =>
      do config <- yaml_load config_file;
      io_lift (try_except (getitem config "xmla_authentication")
                          (Ok (YBool false))))
  else io_ret (YBool false).

(** The dictionary display [{config['name']: config['source']}] sits in a
    [try] whose handler replaces any exception, so the order in which the
    two lookups are evaluated does not show. *)
Definition get_cubes_names (self : ConfigParser) : IO dict :=
  let file_path := get_config_file_path self in
  with_open file_path (fun config_file =>
    do config <- yaml_load config_file;
    io_lift (try_except
               (name ← getitem config "name";
                source ← getitem config "source";
                dict_update [] [Ok (name, source)])
               (Raise (ValueError "missed name or source tags")))).

(** The [Facts(...)] call of [_construct_cubes_excel]. *)
Definition build_facts (config : yaml) : result Facts.t :=
  table_name ← getpath config ["facts"; "table_name"];
  columns_names ← getpath config ["facts"; "keys"; "columns_names"];
  refs ← getpath config ["facts"; "keys"; "refs"];
  names_it ← py_iter columns_names;
  refs_it ← py_iter refs;
  keys ← dict_update [] (Ok <$> zip names_it refs_it);
  measures ← getpath config ["facts"; "measures"];
  Ok (Facts.make table_name keys measures).

(** One item of the generator over a dimension's columns. *)
Definition column_item (column : yaml) : result (yaml * yaml) :=
  name ← getitem column "name";
  has_new_name ← py_contains "column_new_name" column;
  display ← (if negb has_new_name then getitem column "name"
             else getitem column "column_new_name");
  Ok (name, display).

(** The [Dimension(...)] call of [_construct_cubes_excel]. *)
Definition build_dimension (dimension : yaml) : result Dimension.t :=
  name ← getpath dimension ["dimension"; "name"];
  displayName ← getpath dimension ["dimension"; "displayName"];
  inner ← getitem dimension "dimension";
  has_columns ← py_contains "columns" inner;
  columns ← (if has_columns : bool then
               cols ← getpath dimension ["dimension"; "columns"];
               cols_it ← py_iter cols;
               d ← dict_update [] (column_item <$> cols_it);
               Ok (OrderedDict d)
             else Ok (PlainDict []));
  Ok (Dimension.make name displayName columns).

Definition build_dimensions (config : yaml) : result (list Dimension.t) :=
  dims ← getitem config "dimensions";
  dims_it ← py_iter dims;
  for_each build_dimension dims_it.

Definition _construct_cubes_excel (self : ConfigParser) : IO (list Cube.t) :=
  do loaded <-
    with_open (get_config_file_path self) (fun config_file =>
      do config <- yaml_load config_file;
      do facts <- io_lift (f ← build_facts config; Ok [f]);
      do dimensions <- io_lift (build_dimensions config);
      io_ret (config, facts, dimensions));
  let '(config, facts, dimensions) := loaded in
  io_lift (name ← getitem config "name";
           source ← getitem config "source";
           Ok [Cube.make name source facts dimensions]).

Definition construct_cubes (self : ConfigParser) : IO (list Cube.t) :=
  do found <- config_file_exists self;
  if found : bool then _construct_cubes_excel self
  else io_raise (ValueError "Config file doesn't exist").

(** ** Well-formed documents

    The shape of a configuration document: the top-level [name] and
    [source], a [facts] mapping with [table_name], [measures] and a [keys]
    mapping of two sequences ([columns_names], a sequence of scalars, and
    [refs]), and a [dimensions] sequence whose entries wrap a [dimension]
    mapping with [name], [displayName] and, optionally, a [columns]
    sequence of mappings that have a scalar [name]. *)

Definition is_scalar (v : yaml) : bool :=
  match v with YScalar _ => true | _ => false end.

Definition is_seq_of (P : yaml → bool) (v : yaml) : bool :=
  match v with YSeq l => forallb P l | _ => false end.

Definition key_is (k : string) (P : yaml → bool) (v : yaml) : bool :=
  match getitem v k with Ok x => P x | Raise _ => false end.

Definition has_key (k : string) (v : yaml) : bool := key_is k (fun _ => true) v.

Definition valid_column (column : yaml) : bool := key_is "name" is_scalar column.

Definition valid_columns (inner : yaml) : bool :=
  match getitem inner "columns" with
  | Ok cols => is_seq_of valid_column cols
  | Raise _ => true
  end.

Definition valid_dimension (entry : yaml) : bool :=
  key_is "dimension"
    (fun inner =>
       has_key "name" inner && has_key "displayName" inner
       && valid_columns inner)
    entry.

Definition valid_facts (facts : yaml) : bool :=
  has_key "table_name" facts
  && key_is "keys"
       (fun keys =>
          key_is "columns_names" (is_seq_of is_scalar) keys
          && key_is "refs" (is_seq_of (fun _ => true)) keys)
       facts
  && has_key "measures" facts.

(** Everything but the identity keys. *)
Definition valid_body (config : yaml) : bool :=
  key_is "facts" valid_facts config
  && key_is "dimensions" (is_seq_of valid_dimension) config.

Definition valid_document (config : yaml) : bool :=
  has_key "name" config && has_key "source" config && valid_body config.

(** ** Vocabulary of the statements *)

(** Inserting already hashed pairs one after the other. *)
Definition dict_insert_all (d : dict) (l : list (scalar * yaml)) : dict :=
  foldl (fun d kv => dict_set kv.1 kv.2 d) d l.

(** The name and the display name a column entry declares. *)
Definition column_name (column : yaml) : option scalar :=
  match getitem column "name" with
  | Ok (YScalar s) => Some s
  | _ => None
  end.

Definition column_display (column : yaml) : option yaml :=
  match getitem column "column_new_name" with
  | Ok v => Some v
  | Raise _ =>
      match getitem column "name" with
      | Ok v => Some v
      | Raise _ => None
      end
  end.

Definition column_entry (column : yaml) : option (scalar * yaml) :=
  match column_name column, column_display column with
  | Some k, Some v => Some (k, v)
  | _, _ => None
  end.

(** No two keys of the list are equal in Python's sense. *)
Fixpoint distinct_keys (ks : list scalar) : bool :=
  match ks with
  | [] => true
  | k :: ks' => negb (existsb (py_eqb k) ks') && distinct_keys ks'
  end.

(** The file a parser reads holds the document [d] and can be opened. *)
Definition holds (w : world) (self : ConfigParser) (d : yaml) : Prop :=
  files w !! get_config_file_path self = Some (RegularFile true (Document d)).

(** Errors that come from the shape of the document. *)
Definition structural (e : exn) : bool :=
  match e with
  | KeyError _ | TypeError => true
  | _ => false
  end.

(** A computation whose only failures are [KeyError] and [TypeError]. *)
Definition raises_structural {A : Type} (r : result A) : Prop :=
  ∀ e, r = Raise e → structural e = true.

(** The value [_construct_cubes_excel] computes from a decoded document:
    its expressions in the order in which they are evaluated. *)
Definition cubes_of (config : yaml) : result (list Cube.t) :=
  facts ← build_facts config;
  dimensions ← build_dimensions config;
  name ← getitem config "name";
  source ← getitem config "source";
  Ok [Cube.make name source [facts] dimensions].

(** The separator [os.path.join] puts after a first component. *)
Definition join_sep (a : string) : string :=
  if bool_decide (a = "") || ends_with_sep a then "" else "/".

(** What the claim on dimension columns asks of a built mapping: every
    declared column has its name sent to its own display name. *)
Definition sends_each_column (cols : list yaml) (m : mapping) : Prop :=
  ∀ c k v, c ∈ cols → column_entry c = Some (k, v) →
           dict_get k (entries m) = Some v.

(** ** Sample documents and worlds *)

Definition column (name : string) (new_name : option string) : yaml :=
  YMap ((SStr "name", YStr name)
        :: match new_name with
           | Some n => [(SStr "column_new_name", YStr n)]
           | None => []
           end).

Definition dimension_entry (name displayName : string)
    (columns : option (list yaml)) : yaml :=
  YMap [(SStr "dimension",
         YMap ([(SStr "name", YStr name);
                (SStr "displayName", YStr displayName)]
               ++ match columns with
                  | Some cols => [(SStr "columns", YSeq cols)]
                  | None => []
                  end))].

Definition facts_section (fields : dict) (names refs : list yaml) : yaml :=
  YMap (fields
        ++ [(SStr "keys",
             YMap [(SStr "columns_names", YSeq names);
                   (SStr "refs", YSeq refs)]);
            (SStr "measures", YSeq [YStr "montant"; YStr "cout_total_mensuel"])]).

Definition stats_line : dict := [(SStr "table_name", YStr "stats_line")].

Definition labster_identity : dict :=
  [(SStr "name", YStr "labster"); (SStr "source", YStr "csv")].

(** The cube of the class documentation: the facts table [stats_line]
    keyed on [orgunit.id], the dimension [orgunit] with a renamed column,
    and a dimension that declares no columns. *)
Definition labster_columns : list yaml :=
  [column "type" None; column "nom" (Some "Name")].

Definition labster : yaml :=
  YMap ((SStr "xmla_authentication", YBool true)
        :: labster_identity
        ++ [(SStr "facts",
             facts_section stats_line [YStr "departement_id"]
               [YStr "orgunit.id"]);
            (SStr "dimensions",
             YSeq [dimension_entry "orgunit" "Organisation"
                     (Some labster_columns);
                   dimension_entry "time" "Time" None])]).

(** The same cube with other top-level entries, facts keys or columns. *)
Definition variant (top fields : dict) (names refs columns : list yaml)
  : yaml :=
  YMap (top
        ++ [(SStr "facts", facts_section fields names refs);
            (SStr "dimensions",
             YSeq [dimension_entry "orgunit" "Organisation"
                     (Some columns)])]).

(** Two declarations of the column [nom], the first one renamed. *)
Definition repeated_columns : list yaml :=
  [column "nom" (Some "Name"); column "nom" None].

Definition repeated_column_doc : yaml :=
  variant labster_identity stats_line [YStr "departement_id"]
    [YStr "orgunit.id"] repeated_columns.

(** [departement_id] listed twice, and one reference short. *)
Definition repeated_key_names : list scalar :=
  [SStr "departement_id"; SStr "site_id"; SStr "departement_id";
   SStr "year"].

Definition repeated_key_refs : list yaml :=
  [YStr "orgunit.id"; YStr "site.id"; YStr "unit.id"].

Definition repeated_key_doc : yaml :=
  variant labster_identity stats_line (YScalar <$> repeated_key_names)
    repeated_key_refs labster_columns.

(** No [table_name] under [facts]. *)
Definition no_table_name_doc : yaml :=
  variant labster_identity [] [YStr "departement_id"] [YStr "orgunit.id"]
    labster_columns.

(** No top-level [name]. *)
Definition no_name_doc : yaml :=
  variant [(SStr "source", YStr "csv")] stats_line [YStr "departement_id"]
    [YStr "orgunit.id"] labster_columns.

(** A flag that is not a boolean. *)
Definition text_flag_doc : yaml :=
  YMap ((SStr "xmla_authentication", YStr "yes") :: labster_identity).

Definition default_config_path : string :=
  "/home/olap/olapy-data/cubes/cubes-config.yml".

(** A machine without [OLAPY_PATH] whose configuration path holds [n]. *)
Definition world_with (n : option node) : world :=
  {| environ := ∅;
     home := "/home/olap";
     files := match n with
              | Some n => {[ default_config_path := n ]}
              | None => ∅
              end |}.

Definition world_of (d : yaml) : world :=
  world_with (Some (RegularFile true (Document d))).

Definition override_world : world :=
  {| environ := {[ "OLAPY_PATH" := "/srv/olap" ]};
     home := "/home/olap";
     files := ∅ |}.

(** [ConfigParser()] *)
Definition default_parser (w : world) : ConfigParser :=
  __init__ None default_file_name default_web_config_file_name w.

(** ** Vocabulary of the further properties *)

(** The keys of [ks] that are not among [seen], each once, in the order of
    their first occurrence. *)
Fixpoint fresh_keys (seen ks : list scalar) : list scalar :=
  match ks with
  | [] => []
  | k :: ks' =>
      if existsb (py_eqb k) seen then fresh_keys seen ks'
      else k :: fresh_keys (seen ++ [k]) ks'
  end.

Definition first_occurrences (ks : list scalar) : list scalar :=
  fresh_keys [] ks.

(** The characters of a string, as dictionary keys. *)
Fixpoint char_keys (s : string) : list scalar :=
  match s with
  | EmptyString => []
  | String c s' => SStr (String c EmptyString) :: char_keys s'
  end.

(** [columns_names] written as the text [ab] instead of a sequence. *)
Definition text_names_doc : yaml :=
  YMap (labster_identity
        ++ [(SStr "facts",
             YMap (stats_line
                   ++ [(SStr "keys",
                        YMap [(SStr "columns_names", YStr "ab");
                              (SStr "refs",
                               YSeq [YStr "orgunit.id"; YStr "site.id"])]);
                       (SStr "measures", YSeq [YStr "montant"])]));
            (SStr "dimensions", YSeq [dimension_entry "time" "Time" None])]).

(** A sequence where a column name is expected. *)
Definition list_name_doc : yaml :=
  variant labster_identity stats_line
    [YStr "departement_id"; YSeq [YStr "site_id"]]
    [YStr "orgunit.id"; YStr "site.id"] labster_columns.

(** Neither [name] nor [source], and a second dimension without
    [displayName]. *)
Definition nameless_dimension : yaml :=
  YMap [(SStr "dimension", YMap [(SStr "name", YStr "orgunit")])].

Definition no_display_name_doc : yaml :=
  YMap [(SStr "facts",
         facts_section stats_line [YStr "departement_id"]
           [YStr "orgunit.id"]);
        (SStr "dimensions",
         YSeq [dimension_entry "time" "Time" None; nameless_dimension;
               dimension_entry "site" "Site" None])].

(** The column [nom] declared again, renamed, after [type]. *)
Definition redeclared_columns : list yaml :=
  [column "nom" None; column "type" None; column "nom" (Some "Name")].

Definition redeclared_column_doc : yaml :=
  variant labster_identity stats_line [YStr "departement_id"]
    [YStr "orgunit.id"] redeclared_columns.

(** No [measures] under [facts]. *)
Definition no_measures_doc : yaml :=
  YMap (labster_identity
        ++ [(SStr "facts",
             YMap (stats_line
                   ++ [(SStr "keys",
                        YMap [(SStr "columns_names",
                               YSeq [YStr "departement_id"]);
                              (SStr "refs", YSeq [YStr "orgunit.id"])])]));
            (SStr "dimensions", YSeq [dimension_entry "time" "Time" None])]).

(** A column without a [name]. *)
Definition nameless_column : yaml :=
  YMap [(SStr "column_new_name", YStr "Name")].

Definition nameless_column_doc : yaml :=
  variant labster_identity stats_line [YStr "departement_id"]
    [YStr "orgunit.id"] [column "type" None; nameless_column].

(** [ConfigParser(cube_path='/data/cubes')] *)
Definition data_parser (w : world) : ConfigParser :=
  __init__ (Some "/data/cubes") default_file_name
    default_web_config_file_name w.

(** * Properties *)

(** ** Dictionaries *)

Section dictionaries.
Implicit Types (k : scalar) (v : yaml) (d : dict) (l : list (scalar * yaml)).

Lemma py_eqb_refl k : py_eqb k k = true.
Proof. unfold py_eqb. by rewrite bool_decide_eq_true. Qed.

Lemma py_eqb_sym k1 k2 : py_eqb k1 k2 = py_eqb k2 k1.
Proof. unfold py_eqb. apply bool_decide_ext. split; congruence. Qed.

Lemma py_eqb_trans k1 k2 k3 :
  py_eqb k1 k2 = true → py_eqb k2 k3 = true → py_eqb k1 k3 = true.
Proof. unfold py_eqb. rewrite !bool_decide_eq_true. congruence. Qed.

Lemma py_eqb_neq_l k1 k2 k3 :
  py_eqb k1 k2 = true → py_eqb k2 k3 = false → py_eqb k1 k3 = false.
Proof.
  unfold py_eqb. rewrite !bool_decide_eq_true, !bool_decide_eq_false.
  congruence.
Qed.

Lemma dict_get_set_eq k k' v d :
  py_eqb k k' = true → dict_get k' (dict_set k v d) = Some v.
Proof.
  intros Hk. induction d as [|[a x] d IH]; simpl.
  - by rewrite Hk.
  - destruct (py_eqb a k) eqn:Ha; simpl.
    + by rewrite (py_eqb_trans a k k').
    + rewrite py_eqb_sym in Hk.
      assert (py_eqb a k' = false) as ->; [|done].
      rewrite py_eqb_sym. rewrite py_eqb_sym in Ha.
      by apply (py_eqb_neq_l k' k a).
Qed.

Lemma dict_get_set_ne k k' v d :
  py_eqb k k' = false → dict_get k' (dict_set k v d) = dict_get k' d.
Proof.
  intros Hk. induction d as [|[a x] d IH]; simpl.
  - by rewrite Hk.
  - destruct (py_eqb a k) eqn:Ha; simpl; [|by rewrite IH].
    by rewrite (py_eqb_neq_l a k k').
Qed.

Lemma dict_set_length k v d :
  length (dict_set k v d) =
  if dict_mem k d then length d else S (length d).
Proof.
  unfold dict_mem. induction d as [|[a x] d IH]; simpl; [done|].
  destruct (py_eqb a k); simpl; [done|].
  rewrite IH. by destruct (dict_get k d).
Qed.

Lemma dict_mem_set k k' v d :
  dict_mem k' (dict_set k v d) = py_eqb k k' || dict_mem k' d.
Proof.
  unfold dict_mem. destruct (py_eqb k k') eqn:Hk.
  - by rewrite dict_get_set_eq.
  - by rewrite dict_get_set_ne.
Qed.

(** A key that no entry equals is absent. *)
Lemma dict_get_None k d :
  existsb (py_eqb k) d.*1 = false → dict_get k d = None.
Proof.
  induction d as [|[a x] d IH]; simpl; [done|].
  rewrite orb_false_iff. intros [Ha Hd].
  rewrite py_eqb_sym, Ha. auto.
Qed.

Lemma dict_mem_existsb k d : dict_mem k d = existsb (py_eqb k) d.*1.
Proof.
  unfold dict_mem. induction d as [|[a x] d IH]; simpl; [done|].
  rewrite (py_eqb_sym k a). by destruct (py_eqb a k).
Qed.

Lemma dict_set_fresh k v d :
  dict_mem k d = false → dict_set k v d = d ++ [(k, v)].
Proof.
  unfold dict_mem. induction d as [|[a x] d IH]; simpl; [done|].
  destruct (py_eqb a k); [done|]. intros H. by rewrite IH.
Qed.

Lemma dict_insert_all_app d l1 l2 :
  dict_insert_all d (l1 ++ l2) = dict_insert_all (dict_insert_all d l1) l2.
Proof. apply foldl_app. Qed.

Lemma dict_insert_all_cons d k v l :
  dict_insert_all d ((k, v) :: l) = dict_insert_all (dict_set k v d) l.
Proof. done. Qed.

(** Later pairs with other keys do not disturb an entry. *)
Lemma dict_get_insert_all_ne k d l :
  existsb (py_eqb k) l.*1 = false →
  dict_get k (dict_insert_all d l) = dict_get k d.
Proof.
  revert d. induction l as [|[a x] l IH]; intros d Hl; [done|].
  simpl in Hl. apply orb_false_iff in Hl as [Ha Hl].
  rewrite dict_insert_all_cons, IH by done.
  apply dict_get_set_ne. by rewrite py_eqb_sym.
Qed.

(** The last pair with a given key decides the value. *)
Lemma dict_get_insert_all_last k v d l1 l2 :
  existsb (py_eqb k) l2.*1 = false →
  dict_get k (dict_insert_all d (l1 ++ (k, v) :: l2)) = Some v.
Proof.
  intros Hl2.
  rewrite dict_insert_all_app, dict_insert_all_cons.
  rewrite dict_get_insert_all_ne by done.
  apply dict_get_set_eq, py_eqb_refl.
Qed.

Lemma dict_mem_insert_all_mono k d l :
  dict_mem k d = true → dict_mem k (dict_insert_all d l) = true.
Proof.
  revert d. induction l as [|[a x] l IH]; intros d Hd; [done|].
  rewrite dict_insert_all_cons. apply IH.
  rewrite dict_mem_set, Hd. apply orb_true_r.
Qed.

Lemma dict_mem_insert_all_elem k k' v d l :
  (k', v) ∈ l → py_eqb k' k = true →
  dict_mem k (dict_insert_all d l) = true.
Proof.
  intros Hin Hk. revert d.
  induction l as [|[a x] l IH]; intros d; [by apply elem_of_nil in Hin|].
  rewrite dict_insert_all_cons.
  apply elem_of_cons in Hin as [[= <- <-]|Hin]; [|by apply IH].
  apply dict_mem_insert_all_mono. by rewrite dict_mem_set, Hk.
Qed.

Lemma dict_insert_all_length_le d l :
  length (dict_insert_all d l) ≤ length d + length l.
Proof.
  revert d. induction l as [|[a x] l IH]; intros d; [simpl; lia|].
  rewrite dict_insert_all_cons. specialize (IH (dict_set a x d)).
  rewrite dict_set_length in IH. simpl. destruct (dict_mem a d); lia.
Qed.

(** A repeated key costs an entry. *)
Lemma dict_insert_all_length_dup d l1 l2 k k' v v' :
  (k', v') ∈ l1 → py_eqb k' k = true →
  length (dict_insert_all d (l1 ++ (k, v) :: l2))
  < length d + length (l1 ++ (k, v) :: l2).
Proof.
  intros Hin Hk.
  rewrite dict_insert_all_app, dict_insert_all_cons, length_app. simpl.
  pose proof (dict_insert_all_length_le
                (dict_set k v (dict_insert_all d l1)) l2) as H2.
  rewrite dict_set_length in H2.
  rewrite (dict_mem_insert_all_elem k k' v' d l1) in H2 by done.
  pose proof (dict_insert_all_length_le d l1). lia.
Qed.

(** Pairwise distinct keys: the dictionary is the list of pairs. *)
Lemma dict_insert_all_distinct d l :
  distinct_keys (d.*1 ++ l.*1) = true → dict_insert_all d l = d ++ l.
Proof.
  revert d. induction l as [|[a x] l IH]; intros d Hd.
  - by rewrite app_nil_r.
  - rewrite dict_insert_all_cons.
    assert (dict_mem a d = false) as Hfresh.
    { rewrite dict_mem_existsb. clear IH.
      induction d as [|[b y] d IHd]; simpl in *; [done|].
      apply andb_true_iff in Hd as [Hb Hd].
      rewrite negb_true_iff, existsb_app in Hb.
      apply orb_false_iff in Hb as [_ Hb]. simpl in Hb.
      apply orb_false_iff in Hb as [Hb _].
      rewrite py_eqb_sym, Hb. simpl. by apply IHd. }
    rewrite dict_set_fresh by done.
    rewrite IH.
    + by rewrite <- app_assoc.
    + rewrite fmap_app. simpl. by rewrite <- app_assoc.
Qed.
(** The keys of a dictionary stay pairwise distinct. *)
Lemma dict_set_keys k v d :
  (dict_set k v d).*1 = if dict_mem k d then d.*1 else d.*1 ++ [k].
Proof.
  unfold dict_mem. induction d as [|[a x] d IH]; [done|].
  cbn [dict_set dict_get]. destruct (py_eqb a k); [done|].
  rewrite !fmap_cons, IH. by destruct (dict_get k d).
Qed.

Lemma distinct_keys_snoc (ks : list scalar) k :
  distinct_keys (ks ++ [k])
  = distinct_keys ks && negb (existsb (py_eqb k) ks).
Proof.
  induction ks as [|a ks IH]; simpl; [done|].
  rewrite IH, existsb_app. simpl.
  rewrite (py_eqb_sym k a).
  destruct (existsb (py_eqb a) ks), (py_eqb a k), (distinct_keys ks),
    (existsb (py_eqb k) ks); done.
Qed.

Lemma dict_insert_all_unique d l :
  distinct_keys d.*1 = true → distinct_keys (dict_insert_all d l).*1 = true.
Proof.
  revert d. induction l as [|[a x] l IH]; intros d Hd; [done|].
  rewrite dict_insert_all_cons. apply IH.
  rewrite dict_set_keys. destruct (dict_mem a d) eqn:Ha; [done|].
  rewrite distinct_keys_snoc, Hd. simpl.
  by rewrite <- dict_mem_existsb, Ha.
Qed.
End dictionaries.

(** ** The error monad *)

Section results.
Context {A B : Type}.

Lemma bind_Ok (a : A) (f : A → result B) : (Ok a ≫= f) = f a.
Proof. done. Qed.

Lemma bind_Raise (e : exn) (f : A → result B) : (Raise e ≫= f) = Raise e.
Proof. done. Qed.

Lemma bind_Ok_inv (r : result A) (f : A → result B) (b : B) :
  (r ≫= f) = Ok b → ∃ a, r = Ok a ∧ f a = Ok b.
Proof. destruct r as [a|e]; [eauto|done]. Qed.
End results.

Section structural_errors.
Lemma rs_Ok {A} (a : A) : raises_structural (Ok a).
Proof. by intros e. Qed.

Lemma rs_Raise_KeyError {A} k : raises_structural (@Raise A (KeyError k)).
Proof. by intros e [= <-]. Qed.

Lemma rs_Raise_TypeError {A} : raises_structural (@Raise A TypeError).
Proof. by intros e [= <-]. Qed.

Lemma rs_bind {A B} (r : result A) (f : A → result B) :
  raises_structural r → (∀ a, raises_structural (f a)) →
  raises_structural (r ≫= f).
Proof.
  intros Hr Hf e. destruct r as [a|e']; simpl.
  - apply Hf.
  - intros [= <-]. by apply Hr.
Qed.

Lemma rs_getitem v k : raises_structural (getitem v k).
Proof.
  destruct v as [s|l|m]; simpl; try apply rs_Raise_TypeError.
  destruct (dict_get _ _); [apply rs_Ok|apply rs_Raise_KeyError].
Qed.

Lemma rs_getpath v ks : raises_structural (getpath v ks).
Proof.
  revert v. induction ks as [|k ks IH]; intros v; simpl; [apply rs_Ok|].
  apply rs_bind; [apply rs_getitem|done].
Qed.

Lemma rs_py_iter v : raises_structural (py_iter v).
Proof.
  destruct v as [[]|l|m]; simpl;
    first [apply rs_Ok|apply rs_Raise_TypeError].
Qed.

Lemma rs_py_contains k v : raises_structural (py_contains k v).
Proof.
  destruct v as [[]|l|m]; simpl;
    first [apply rs_Ok|apply rs_Raise_TypeError].
Qed.

Lemma rs_hashable v : raises_structural (hashable v).
Proof.
  destruct v; simpl; first [apply rs_Ok|apply rs_Raise_TypeError].
Qed.

Lemma rs_dict_update d items :
  Forall raises_structural items → raises_structural (dict_update d items).
Proof.
  intros Hitems. revert d.
  induction Hitems as [|item items Hitem _ IH]; intros d; simpl.
  - apply rs_Ok.
  - apply rs_bind; [done|]. intros kv.
    apply rs_bind; [apply rs_hashable|]. intros s. apply IH.
Qed.

Lemma rs_for_each {A B} (f : A → result B) xs :
  (∀ x, raises_structural (f x)) → raises_structural (for_each f xs).
Proof.
  intros Hf. induction xs as [|x xs IH]; simpl; [apply rs_Ok|].
  apply rs_bind; [done|]. intros y.
  apply rs_bind; [done|]. intros ys. apply rs_Ok.
Qed.
End structural_errors.

Create HintDb structural.
#[local] Hint Resolve rs_Ok rs_Raise_KeyError rs_Raise_TypeError rs_getitem
  rs_getpath rs_py_iter rs_py_contains rs_hashable : structural.

Ltac structural_step :=
  first [ apply rs_bind; [|intro]
        | apply rs_dict_update
        | apply rs_for_each; intro
        | solve [auto with structural] ].

Section builder_errors.
Lemma rs_column_item column : raises_structural (column_item column).
Proof.
  unfold column_item. repeat structural_step.
  destruct (negb _); auto with structural.
Qed.

Lemma rs_build_facts config : raises_structural (build_facts config).
Proof.
  unfold build_facts. repeat structural_step.
  apply Forall_fmap, Forall_forall. intros kv _. apply rs_Ok.
Qed.

Lemma rs_build_dimension dimension :
  raises_structural (build_dimension dimension).
Proof.
  unfold build_dimension. repeat structural_step.
  match goal with |- context [if ?b then _ else _] => destruct b end;
    repeat structural_step.
  apply Forall_fmap, Forall_forall. intros c _. apply rs_column_item.
Qed.

Lemma rs_build_dimensions config :
  raises_structural (build_dimensions config).
Proof.
  unfold build_dimensions.
  apply rs_bind; [auto with structural|intros dims].
  apply rs_bind; [auto with structural|intros dims_it].
  apply rs_for_each, rs_build_dimension.
Qed.
End builder_errors.

(** ** [zip] and the construction of dictionaries *)

Section zip_facts.
Context {A B : Type}.
Implicit Types (a : list A) (b : list B).

Lemma zip_lookup a b i :
  zip a b !! i =
  match a !! i, b !! i with
  | Some x, Some y => Some (x, y)
  | _, _ => None
  end.
Proof.
  revert b i. induction a as [|x a IH]; intros [|y b] [|i]; simpl;
    first [done|by destruct (a !! i)|apply IH].
Qed.

Lemma zip_length a b : length (zip a b) = length a `min` length b.
Proof.
  revert b. induction a as [|x a IH]; intros [|y b]; simpl; [done..|].
  by rewrite IH.
Qed.

Lemma zip_take a b :
  let n := length a `min` length b in
  zip a b = zip (take n a) (take n b).
Proof.
  revert b. induction a as [|x a IH]; intros [|y b]; simpl; [done..|].
  f_equal. apply IH.
Qed.

Lemma zip_fmap_l {C} (f : A → C) a b :
  zip (f <$> a) b = prod_map f id <$> zip a b.
Proof.
  revert b. induction a as [|x a IH]; intros [|y b]; simpl; [done..|].
  by rewrite IH.
Qed.
End zip_facts.

Lemma dict_update_hashed d (l : list (scalar * yaml)) :
  dict_update d (Ok <$> (prod_map YScalar id <$> l)) = Ok (dict_insert_all d l).
Proof.
  revert d. induction l as [|[k v] l IH]; intros d; [done|].
  simpl. apply IH.
Qed.

(** ** The builders on well-formed documents *)

Section builders.
Lemma is_seq_of_inv P v :
  is_seq_of P v = true → ∃ l, v = YSeq l ∧ Forall (fun x => P x = true) l.
Proof.
  destruct v as [s|l|m]; simpl; [done| |done].
  intros H. exists l. split; [done|].
  induction l as [|x l IH]; simpl in H; [constructor|].
  apply andb_true_iff in H as [Hx Hl]. constructor; auto.
Qed.

Lemma key_is_inv k P v :
  key_is k P v = true → ∃ x, getitem v k = Ok x ∧ P x = true.
Proof. unfold key_is. destruct (getitem v k); [eauto|done]. Qed.

Lemma scalars_inv l :
  Forall (fun x => is_scalar x = true) l → ∃ ks, l = YScalar <$> ks.
Proof.
  induction 1 as [|x l Hx _ [ks ->]]; [by exists []|].
  destruct x as [s| |]; try done. by exists (s :: ks).
Qed.

Lemma scalars_inj (ks ks' : list scalar) :
  YScalar <$> ks = YScalar <$> ks' → ks = ks'.
Proof.
  revert ks'. induction ks as [|k ks IH]; intros [|k' ks'] H; try done.
  injection H as -> H. f_equal. by apply IH.
Qed.

Lemma contains_getitem k m :
  py_contains k (YMap m) =
  Ok (match getitem (YMap m) k with Ok _ => true | Raise _ => false end).
Proof. simpl. unfold dict_mem. by destruct (dict_get _ _). Qed.

Lemma column_item_entry column :
  valid_column column = true →
  ∃ k v, column_entry column = Some (k, v)
         ∧ column_item column = Ok (YScalar k, v).
Proof.
  intros (x & Hname & Hx)%key_is_inv.
  destruct x as [k| |]; try done.
  unfold column_entry, column_name, column_display, column_item.
  destruct column as [|?|m]; try done.
  rewrite Hname, contains_getitem, !bind_Ok.
  destruct (getitem (YMap m) "column_new_name") as [v|e] eqn:Hnew; simpl;
    rewrite ?Hname; simpl; eauto.
Qed.

Lemma dict_update_columns d cols :
  Forall (fun c => valid_column c = true) cols →
  ∃ pairs, mapM column_entry cols = Some pairs
           ∧ dict_update d (column_item <$> cols)
             = Ok (dict_insert_all d pairs).
Proof.
  intros Hcols. revert d.
  induction Hcols as [|c cols Hc _ IH]; intros d; [by exists []|].
  apply column_item_entry in Hc as (k & v & Hentry & Hitem).
  destruct (IH (dict_set k v d)) as (pairs & Hpairs & Hupd).
  exists ((k, v) :: pairs). split.
  - simpl. rewrite Hentry. simpl. by rewrite Hpairs.
  - rewrite fmap_cons. cbn [dict_update].
    rewrite Hitem, !bind_Ok. cbn [fst snd hashable].
    by rewrite bind_Ok, Hupd.
Qed.

(** Facts: the three fields come from the document, the keys from the
    two zipped sequences. *)
Lemma build_facts_valid config facts :
  getitem config "facts" = Ok facts → valid_facts facts = true →
  ∃ table_name ks refs measures,
    getpath config ["facts"; "table_name"] = Ok table_name
    ∧ getpath config ["facts"; "keys"; "columns_names"]
      = Ok (YSeq (YScalar <$> ks))
    ∧ getpath config ["facts"; "keys"; "refs"] = Ok (YSeq refs)
    ∧ getpath config ["facts"; "measures"] = Ok measures
    ∧ build_facts config
      = Ok (Facts.make table_name (dict_insert_all [] (zip ks refs))
              measures).
Proof.
  intros Hfacts Hvalid. unfold valid_facts, has_key in Hvalid.
  apply andb_true_iff in Hvalid as [Hvalid Hmeasures].
  apply andb_true_iff in Hvalid as [Htable Hkeys].
  apply key_is_inv in Htable as (table_name & Htable & _).
  apply key_is_inv in Hmeasures as (measures & Hmeasures & _).
  apply key_is_inv in Hkeys as (keys & Hkeys & Hk).
  apply andb_true_iff in Hk as [Hnames Hrefs].
  apply key_is_inv in Hnames as (names & Hnames & Hseq).
  apply is_seq_of_inv in Hseq as (l & -> & [ks ->]%scalars_inv).
  apply key_is_inv in Hrefs as (refs' & Hrefs & Hseq).
  apply is_seq_of_inv in Hseq as (refs & -> & _).
  exists table_name, ks, refs, measures.
  unfold build_facts. simpl.
  rewrite Hfacts. simpl. rewrite Htable, Hkeys, Hmeasures. simpl.
  rewrite Hnames, Hrefs. simpl.
  rewrite zip_fmap_l, dict_update_hashed. by simpl.
Qed.

(** Dimension: name and display name come from the entry; the columns
    are the ordered dictionary of the declared columns, or [{}]. *)
Lemma build_dimension_valid entry :
  valid_dimension entry = true →
  ∃ name displayName columns,
    getpath entry ["dimension"; "name"] = Ok name
    ∧ getpath entry ["dimension"; "displayName"] = Ok displayName
    ∧ build_dimension entry = Ok (Dimension.make name displayName columns)
    ∧ match getpath entry ["dimension"; "columns"] with
      | Ok cols =>
          ∃ l pairs, cols = YSeq l
                     ∧ mapM column_entry l = Some pairs
                     ∧ columns = OrderedDict (dict_insert_all [] pairs)
      | Raise _ => columns = PlainDict []
      end.
Proof.
  intros (inner & Hinner & Hvalid)%key_is_inv.
  apply andb_true_iff in Hvalid as [Hvalid Hcolumns].
  apply andb_true_iff in Hvalid as [Hname Hdisplay].
  apply key_is_inv in Hname as (name & Hname & _).
  apply key_is_inv in Hdisplay as (displayName & Hdisplay & _).
  destruct inner as [|?|m]; try done.
  unfold valid_columns in Hcolumns.
  unfold build_dimension. simpl getpath.
  rewrite Hinner, !bind_Ok, Hname, Hdisplay, !bind_Ok, contains_getitem.
  destruct (getitem (YMap m) "columns") as [cols|e] eqn:Hcols.
  - apply is_seq_of_inv in Hcolumns as (l & -> & Hl).
    destruct (dict_update_columns [] l Hl) as (pairs & Hpairs & Hupd).
    rewrite !bind_Ok. simpl py_iter. rewrite !bind_Ok, Hupd, !bind_Ok.
    eexists _, _, _. repeat split; eauto.
  - rewrite !bind_Ok. eexists _, _, _. repeat split; eauto.
Qed.

Lemma for_each_build_dimension entries :
  Forall (fun e => valid_dimension e = true) entries →
  ∃ dims, for_each build_dimension entries = Ok dims
          ∧ Forall2 (fun e dim => build_dimension e = Ok dim) entries dims.
Proof.
  induction 1 as [|e entries He _ (dims & Hdims & Hall)];
    [by exists []|].
  destruct (build_dimension_valid e He) as (n & dn & c & _ & _ & Hdim & _).
  exists (Dimension.make n dn c :: dims). simpl.
  rewrite Hdim, Hdims. split; [done|]. by constructor.
Qed.
End builders.

(** ** Running the methods *)

Section runs.
Variables (w : world) (self : ConfigParser).
Local Abbreviation path := (get_config_file_path self).

Lemma config_file_exists_run :
  config_file_exists self w =
  ([EvIsFile path],
   Ok match files w !! path with
      | Some (RegularFile _ _) => true
      | _ => false
      end).
Proof. done. Qed.

Lemma config_file_exists_holds d :
  holds w self d → config_file_exists self w = ([EvIsFile path], Ok true).
Proof. intros H. rewrite config_file_exists_run. by rewrite H. Qed.

Lemma construct_cubes_excel_run d :
  holds w self d →
  _construct_cubes_excel self w =
  ([EvOpen path; EvLoad path; EvClose path], cubes_of d).
Proof.
  intros H. unfold _construct_cubes_excel, io_bind, with_open, open.
  rewrite H. unfold yaml_load, io_lift, io_ret, cubes_of. simpl.
  destruct (build_facts d) as [f|e]; simpl; [|done].
  destruct (build_dimensions d) as [ds|e]; simpl; [|done].
  destruct (getitem d "name") as [n|e]; simpl; [|done].
  by destruct (getitem d "source") as [s|e].
Qed.

Lemma construct_cubes_run d :
  holds w self d →
  construct_cubes self w =
  ([EvIsFile path; EvOpen path; EvLoad path; EvClose path], cubes_of d).
Proof.
  intros H. unfold construct_cubes, io_bind.
  rewrite (config_file_exists_holds d H).
  by rewrite (construct_cubes_excel_run d H).
Qed.

Lemma construct_cubes_absent :
  outcome (config_file_exists self w) = Ok false →
  construct_cubes self w =
  ([EvIsFile path], Raise (ValueError "Config file doesn't exist")).
Proof.
  rewrite config_file_exists_run. unfold outcome. simpl. intros [= H].
  unfold construct_cubes, io_bind. rewrite config_file_exists_run.
  by rewrite H.
Qed.

Lemma get_cubes_names_run d :
  holds w self d →
  get_cubes_names self w =
  ([EvOpen path; EvLoad path; EvClose path],
   try_except
     (name ← getitem d "name";
      source ← getitem d "source";
      dict_update [] [Ok (name, source)])
     (Raise (ValueError "missed name or source tags"))).
Proof.
  intros H. unfold get_cubes_names, io_bind, with_open, open.
  by rewrite H.
Qed.

Lemma xmla_authentication_run d :
  holds w self d →
  xmla_authentication self w =
  ([EvIsFile path; EvOpen path; EvLoad path; EvClose path],
   try_except (getitem d "xmla_authentication") (Ok (YBool false))).
Proof.
  intros H. unfold xmla_authentication, io_bind.
  rewrite (config_file_exists_holds d H).
  unfold with_open, open. by rewrite H.
Qed.
End runs.

(** On a well-formed body, only the identity keys can fail. *)
Lemma cubes_of_valid_body d :
  valid_body d = true →
  ∃ facts dims,
    build_facts d = Ok facts
    ∧ build_dimensions d = Ok dims
    ∧ cubes_of d =
      (name ← getitem d "name";
       source ← getitem d "source";
       Ok [Cube.make name source [facts] dims]).
Proof.
  intros [Hfacts Hdims]%andb_true_iff.
  apply key_is_inv in Hfacts as (facts & Hfacts & Hvalid).
  apply key_is_inv in Hdims as (dims & Hdims & Hseq).
  apply is_seq_of_inv in Hseq as (l & -> & Hl).
  destruct (build_facts_valid d facts Hfacts Hvalid)
    as (tn & ks & refs & ms & _ & _ & _ & _ & Hbuild).
  destruct (for_each_build_dimension l Hl) as (ds & Hds & _).
  eexists _, ds. unfold cubes_of, build_dimensions.
  rewrite Hbuild, Hdims. simpl. rewrite Hds. done.
Qed.

(** ** Repeated and distinct keys under [zip] *)

Section zip_keys.
Implicit Types (ks : list scalar) (refs : list yaml) (d : dict).

Lemma existsb_zip_keys (P : scalar → bool) ks refs :
  existsb P ks = false → existsb P (zip ks refs).*1 = false.
Proof.
  revert refs. induction ks as [|k ks IH]; intros [|r refs] H; try done.
  simpl in *. apply orb_false_iff in H as [-> H]. simpl. by apply IH.
Qed.

Lemma distinct_keys_zip ks refs :
  distinct_keys ks = true → distinct_keys (zip ks refs).*1 = true.
Proof.
  revert refs. induction ks as [|k ks IH]; intros [|r refs] H; try done.
  simpl in *. apply andb_true_iff in H as [Hk H].
  apply negb_true_iff in Hk.
  rewrite (existsb_zip_keys _ _ _ Hk). simpl. by apply IH.
Qed.

(** A key already in the dictionary adds no entry. *)
Lemma zip_present_length d ks refs :
  existsb (fun k => dict_mem k d) ks = true →
  length (dict_insert_all d (zip ks refs)) < length d + length ks.
Proof.
  revert d refs. induction ks as [|k ks IH]; intros d [|r refs] H;
    try done; [simpl; lia|].
  simpl zip. rewrite dict_insert_all_cons. simpl length.
  simpl in H. destruct (dict_mem k d) eqn:Hk.
  - pose proof (dict_insert_all_length_le (dict_set k r d) (zip ks refs))
      as Hle.
    rewrite dict_set_length, Hk, zip_length in Hle. lia.
  - simpl in H.
    assert (existsb (fun k' => dict_mem k' (dict_set k r d)) ks = true)
      as H'.
    { apply existsb_exists in H as (k' & Hin & Hmem).
      apply existsb_exists. exists k'. split; [done|].
      rewrite dict_mem_set, Hmem. apply orb_true_r. }
    specialize (IH (dict_set k r d) refs H').
    rewrite dict_set_length, Hk in IH. lia.
Qed.

(** A name listed twice: fewer entries than names. *)
Lemma zip_repeated_length d ks refs :
  distinct_keys ks = false →
  length (dict_insert_all d (zip ks refs)) < length d + length ks.
Proof.
  revert d refs. induction ks as [|k ks IH]; intros d [|r refs] H;
    try done; [simpl; lia|].
  simpl zip. rewrite dict_insert_all_cons. simpl length.
  simpl in H. apply andb_false_iff in H as [H|H].
  - apply negb_false_iff in H.
    assert (existsb (fun k' => dict_mem k' (dict_set k r d)) ks = true)
      as H'.
    { apply existsb_exists in H as (k' & Hin & Heq).
      apply existsb_exists. exists k'. split; [done|].
      by rewrite dict_mem_set, Heq. }
    pose proof (zip_present_length (dict_set k r d) ks refs H') as Hlt.
    rewrite dict_set_length in Hlt. destruct (dict_mem k d); lia.
  - specialize (IH (dict_set k r d) refs H).
    rewrite dict_set_length in IH. destruct (dict_mem k d); lia.
Qed.
End zip_keys.

(** ** The cube of a well-formed document *)

Section cubes.
Variables (w : world) (self : ConfigParser) (d : yaml).
Hypothesis Hfile : holds w self d.
Hypothesis Hvalid : valid_document d = true.

(** One cube, made of the identity, the facts and the dimensions. *)
Lemma construct_cubes_valid :
  ∃ name source facts dims,
    getitem d "name" = Ok name
    ∧ getitem d "source" = Ok source
    ∧ build_facts d = Ok facts
    ∧ build_dimensions d = Ok dims
    ∧ outcome (construct_cubes self w)
      = Ok [Cube.make name source [facts] dims].
Proof.
  unfold valid_document in Hvalid.
  apply andb_true_iff in Hvalid as [Hid Hbody].
  apply andb_true_iff in Hid as [Hname Hsource].
  apply key_is_inv in Hname as (name & Hname & _).
  apply key_is_inv in Hsource as (source & Hsource & _).
  destruct (cubes_of_valid_body d Hbody) as (facts & dims & Hf & Hd & Hc).
  exists name, source, facts, dims. repeat split; try done.
  rewrite (construct_cubes_run w self d Hfile). unfold outcome. simpl.
  by rewrite Hc, Hname, Hsource.
Qed.

Lemma construct_cubes_facts_keys ks refs :
  getpath d ["facts"; "keys"; "columns_names"] = Ok (YSeq (YScalar <$> ks)) →
  getpath d ["facts"; "keys"; "refs"] = Ok (YSeq refs) →
  ∃ cube facts,
    outcome (construct_cubes self w) = Ok [cube]
    ∧ Cube.facts cube = [facts]
    ∧ Facts.keys facts = dict_insert_all [] (zip ks refs).
Proof.
  intros Hnames Hrefs.
  destruct construct_cubes_valid as (n & s & facts & dims & _ & _ & Hf & _ & Hc).
  exists (Cube.make n s [facts] dims), facts. repeat split; try done.
  unfold valid_document, valid_body in Hvalid.
  apply andb_true_iff in Hvalid as [_ [Hfacts _]%andb_true_iff].
  apply key_is_inv in Hfacts as (fs & Hfs & Hvf).
  destruct (build_facts_valid d fs Hfs Hvf)
    as (tn & ks' & refs' & ms & _ & Hnames' & Hrefs' & _ & Hbuild).
  rewrite Hnames in Hnames'. rewrite Hrefs in Hrefs'.
  injection Hrefs' as <-. injection Hnames' as Hks.
  apply scalars_inj in Hks as <-.
  rewrite Hf in Hbuild. by injection Hbuild as ->.
Qed.
End cubes.

Lemma for_each_lookup {A B} (f : A → result B) xs ys i x :
  for_each f xs = Ok ys → xs !! i = Some x →
  ∃ y, ys !! i = Some y ∧ f x = Ok y.
Proof.
  revert ys i. induction xs as [|x' xs IH]; intros ys i Hys Hx; [done|].
  simpl in Hys.
  apply bind_Ok_inv in Hys as (y & Hy & Hys).
  apply bind_Ok_inv in Hys as (ys' & Hys' & [= <-]).
  destruct i as [|i]; simpl in *.
  - injection Hx as ->. eauto.
  - by apply IH.
Qed.

Lemma construct_cubes_dimension w self d entries_ i entry :
  holds w self d → valid_document d = true →
  getitem d "dimensions" = Ok (YSeq entries_) → entries_ !! i = Some entry →
  ∃ cube dim,
    outcome (construct_cubes self w) = Ok [cube]
    ∧ Cube.dimensions cube !! i = Some dim
    ∧ build_dimension entry = Ok dim
    ∧ valid_dimension entry = true.
Proof.
  intros Hfile Hvalid Hdims Hentry.
  destruct (construct_cubes_valid w self d Hfile Hvalid)
    as (n & s & facts & dims & _ & _ & _ & Hd & Hc).
  unfold build_dimensions in Hd. rewrite Hdims in Hd. simpl in Hd.
  destruct (for_each_lookup _ _ _ _ _ Hd Hentry) as (dim & Hdim & Hbuild).
  exists (Cube.make n s [facts] dims), dim. repeat split; try done.
  unfold valid_document, valid_body in Hvalid.
  apply andb_true_iff in Hvalid as [_ [_ Hv]%andb_true_iff].
  apply key_is_inv in Hv as (x & Hx & Hseq).
  rewrite Hdims in Hx. injection Hx as <-.
  apply is_seq_of_inv in Hseq as (l & [= <-] & Hl).
  rewrite Forall_lookup in Hl. by apply (Hl i).
Qed.

(** ** Paths *)

Section paths.
Implicit Types (a b : string).

Lemma append_cons x a b : String x a +:+ b = String x (a +:+ b).
Proof. done. Qed.

Lemma append_assoc a b c : (a +:+ b) +:+ c = a +:+ b +:+ c.
Proof.
  induction a as [|x a IH]; [done|]. by rewrite !append_cons, IH.
Qed.

Lemma append_nonempty a b : b ≠ "" → a +:+ b ≠ "".
Proof. destruct a; [done|]. by rewrite append_cons. Qed.

Lemma ends_with_sep_append a b :
  b ≠ "" → ends_with_sep (a +:+ b) = ends_with_sep b.
Proof.
  intros Hb. induction a as [|x a IH]; [done|].
  rewrite append_cons. simpl. rewrite IH.
  destruct (a +:+ b) eqn:Hab; [by apply append_nonempty in Hab|done].
Qed.

(** Joining the two fixed components: they are appended to the first
    one, after a separator unless it already ends with one (or is
    empty). *)
Lemma os_path_join_subpath a :
  os_path_join a ["olapy-data"; "cubes"]
  = a +:+ join_sep a +:+ "olapy-data/cubes".
Proof.
  unfold join_sep. simpl.
  assert (∀ s, (if bool_decide (s +:+ "olapy-data" = "")
                      || ends_with_sep (s +:+ "olapy-data")
                then (s +:+ "olapy-data") +:+ "cubes"
                else (s +:+ "olapy-data") +:+ "/" +:+ "cubes")
               = s +:+ "olapy-data/cubes") as Hsecond.
  { intros s. rewrite ends_with_sep_append by done.
    rewrite bool_decide_false by by apply append_nonempty.
    simpl. by rewrite append_assoc. }
  destruct (bool_decide (a = "") || ends_with_sep a).
  - apply Hsecond.
  - rewrite <- (append_assoc a "/" "olapy-data").
    rewrite Hsecond. by rewrite append_assoc.
Qed.
End paths.

Lemma rs_cubes_of d : raises_structural (cubes_of d).
Proof.
  unfold cubes_of.
  apply rs_bind; [apply rs_build_facts|intros facts].
  apply rs_bind; [apply rs_build_dimensions|intros dims].
  apply rs_bind; [apply rs_getitem|intros name].
  apply rs_bind; [apply rs_getitem|intros source]. apply rs_Ok.
Qed.

(** ** The first failure of a construction *)

Lemma for_each_first_failure {A B} (f : A → result B) pre x post ys e :
  for_each f pre = Ok ys → f x = Raise e →
  for_each f (pre ++ x :: post) = Raise e.
Proof.
  revert ys. induction pre as [|a pre IH]; intros ys Hpre Hx; simpl.
  - by rewrite Hx.
  - simpl in Hpre.
    apply bind_Ok_inv in Hpre as (y & Hy & Hpre).
    apply bind_Ok_inv in Hpre as (ys' & Hys' & _).
    rewrite Hy. simpl. by rewrite (IH ys').
Qed.

Lemma forallb_Forall {A} (P : A → bool) l :
  forallb P l = true → Forall (fun x => P x = true) l.
Proof.
  induction l as [|x l IH]; simpl; [constructor|].
  intros [Hx Hl]%andb_true_iff. constructor; auto.
Qed.

(** The first unhashable key ends the construction of a dictionary. *)
Lemma dict_update_unhashable d (l : list (yaml * yaml)) :
  Exists (fun kv => is_scalar kv.1 = false) l →
  dict_update d (Ok <$> l) = Raise TypeError.
Proof.
  intros Hl. revert d.
  induction l as [|[k v] l IH]; intros d; [by apply Exists_nil in Hl|].
  rewrite fmap_cons. cbn [dict_update]. rewrite bind_Ok. cbn [fst snd].
  destruct k as [s| |]; try done.
  cbn [hashable]. rewrite bind_Ok. apply IH.
  by apply Exists_cons in Hl as [Hl|Hl].
Qed.

Lemma getpath_two_inv v k1 k2 x :
  getpath v [k1; k2] = Ok x →
  ∃ m, getitem v k1 = Ok (YMap m) ∧ getitem (YMap m) k2 = Ok x.
Proof.
  cbn [getpath]. intros (inner & Hinner & H)%bind_Ok_inv.
  apply bind_Ok_inv in H as (y & Hy & [= <-]).
  destruct inner as [| |m]; try done. eauto.
Qed.

Lemma column_item_name_raises c e :
  getitem c "name" = Raise e → column_item c = Raise e.
Proof. intros H. unfold column_item. by rewrite H. Qed.

Lemma column_item_unhashable c n :
  getitem c "name" = Ok n →
  ∃ v, column_item c = Ok (n, v).
Proof.
  intros H. destruct c as [| |m]; try done.
  unfold column_item. rewrite H, contains_getitem, !bind_Ok.
  destruct (getitem (YMap m) "column_new_name") as [v|e] eqn:Hnew.
  - by exists v.
  - by exists n.
Qed.

Lemma dict_update_first_failure d (pre : list yaml) c post e :
  Forall (fun c => valid_column c = true) pre →
  (kv ← column_item c; hashable kv.1) = Raise e →
  dict_update d (column_item <$> pre ++ c :: post) = Raise e.
Proof.
  intros Hpre Hc. revert d.
  induction Hpre as [|a pre Ha _ IH]; intros d.
  - simpl app. rewrite fmap_cons. cbn [dict_update].
    destruct (column_item c) as [kv|e'].
    + rewrite bind_Ok in Hc. by rewrite bind_Ok, Hc.
    + rewrite bind_Raise in Hc. by injection Hc as ->.
  - apply column_item_entry in Ha as (k & v & _ & Hitem).
    simpl app. rewrite fmap_cons. cbn [dict_update].
    rewrite Hitem, !bind_Ok. cbn [fst snd hashable]. rewrite bind_Ok.
    apply IH.
Qed.

Section failures.
Variables (w : world) (self : ConfigParser) (d : yaml).
Hypothesis Hfile : holds w self d.
Local Abbreviation run_outcome := (outcome (construct_cubes self w)).

Lemma outcome_cubes_of : run_outcome = cubes_of d.
Proof. by rewrite (construct_cubes_run w self d Hfile). Qed.

Lemma facts_failure e : build_facts d = Raise e → run_outcome = Raise e.
Proof. intros H. rewrite outcome_cubes_of. unfold cubes_of. by rewrite H. Qed.

Lemma dimensions_failure e :
  key_is "facts" valid_facts d = true →
  build_dimensions d = Raise e → run_outcome = Raise e.
Proof.
  intros (fs & Hfs & Hvf)%key_is_inv H. rewrite outcome_cubes_of.
  destruct (build_facts_valid d fs Hfs Hvf)
    as (tn & ks & refs & ms & _ & _ & _ & _ & Hbuild).
  unfold cubes_of. by rewrite Hbuild, bind_Ok, H.
Qed.

Lemma entry_failure ds pre entry post e :
  key_is "facts" valid_facts d = true →
  getitem d "dimensions" = Ok ds →
  py_iter ds = Ok (pre ++ entry :: post) →
  forallb valid_dimension pre = true →
  build_dimension entry = Raise e → run_outcome = Raise e.
Proof.
  intros Hfacts Hds Hiter Hpre Hentry.
  apply dimensions_failure; [done|].
  unfold build_dimensions. rewrite Hds, bind_Ok, Hiter, bind_Ok.
  destruct (for_each_build_dimension pre (forallb_Forall _ _ Hpre))
    as (dims & Hdims & _).
  by apply (for_each_first_failure build_dimension pre entry post dims).
Qed.
End failures.

Lemma build_dimension_columns_failure entry n dn cols e :
  getpath entry ["dimension"; "name"] = Ok n →
  getpath entry ["dimension"; "displayName"] = Ok dn →
  getpath entry ["dimension"; "columns"] = Ok cols →
  (it ← py_iter cols; dict_update [] (column_item <$> it)) = Raise e →
  build_dimension entry = Raise e.
Proof.
  intros Hn Hdn Hcols Hfail. unfold build_dimension.
  rewrite Hn, Hdn, !bind_Ok.
  apply getpath_two_inv in Hcols as (m & Hinner & Hcols).
  rewrite Hinner, bind_Ok, contains_getitem, Hcols, bind_Ok.
  cbn [getpath]. rewrite Hinner, bind_Ok, Hcols, !bind_Ok.
  destruct (py_iter cols) as [it|e'].
  - rewrite bind_Ok in Hfail. by rewrite !bind_Ok, Hfail.
  - rewrite bind_Raise in Hfail. by injection Hfail as ->.
Qed.

Lemma dict_update_hashable d (l : list (yaml * yaml)) :
  Forall (fun kv => is_scalar kv.1 = true) l →
  ∃ d', dict_update d (Ok <$> l) = Ok d'.
Proof.
  intros Hl. revert d.
  induction Hl as [|[k v] l Hk _ IH]; intros d; [by exists d|].
  destruct k as [s| |]; try done.
  rewrite fmap_cons. cbn [dict_update]. rewrite bind_Ok. cbn [fst snd hashable].
  rewrite bind_Ok. apply IH.
Qed.

(** * The claims *)

(** C1. For every well-formed configuration document that has the
    top-level keys [name], [source], [facts] and [dimensions], stored in
    the configuration file, [construct_cubes()] returns a list of exactly
    one [Cube], whose [name] and [source] are the top-level [name] and
    [source] of the document. *)
Theorem construct_cubes_one_cube
    (w : world) (self : ConfigParser) (d name source : yaml) :
  holds w self d → valid_document d = true →
  getitem d "name" = Ok name → getitem d "source" = Ok source →
  ∃ cube,
    outcome (construct_cubes self w) = Ok [cube]
    ∧ Cube.name cube = name
    ∧ Cube.source cube = source.
Proof.
  intros Hfile Hvalid Hname Hsource.
  destruct (construct_cubes_valid w self d Hfile Hvalid)
    as (n & s & facts & dims & Hn & Hs & _ & _ & Hc).
  rewrite Hname in Hn. rewrite Hsource in Hs.
  injection Hn as <-. injection Hs as <-. eauto.
Qed.

Lemma construct_cubes_one_cube_labster :
  ∃ cube,
    outcome (construct_cubes (default_parser (world_of labster))
               (world_of labster)) = Ok [cube]
    ∧ Cube.name cube = YStr "labster"
    ∧ Cube.source cube = YStr "csv".
Proof.
  apply (construct_cubes_one_cube (world_of labster) _ labster); reflexivity.
Defined.

(** C2. When [facts.keys] lists [columns_names] and [refs] as two
    sequences, the [keys] of the built [Facts] is the dictionary made of
    the pairs [zip(columns_names, refs)]: the pair at position [i] is made
    of the two elements at position [i], there are as many pairs as the
    shorter sequence has elements (the rest of the longer one is dropped
    without an error), and when no name is repeated the dictionary is
    exactly that list of pairs. *)
Theorem facts_keys_pairing
    (w : world) (self : ConfigParser) (d : yaml)
    (ks : list scalar) (refs : list yaml) :
  holds w self d → valid_document d = true →
  getpath d ["facts"; "keys"; "columns_names"] = Ok (YSeq (YScalar <$> ks)) →
  getpath d ["facts"; "keys"; "refs"] = Ok (YSeq refs) →
  ∃ cube facts,
    outcome (construct_cubes self w) = Ok [cube]
    ∧ Cube.facts cube = [facts]
    ∧ Facts.keys facts = dict_insert_all [] (zip ks refs)
    ∧ (∀ i, zip ks refs !! i =
            match ks !! i, refs !! i with
            | Some k, Some r => Some (k, r)
            | _, _ => None
            end)
    ∧ length (zip ks refs) = length ks `min` length refs
    ∧ (distinct_keys ks = true → Facts.keys facts = zip ks refs).
Proof.
  intros Hfile Hvalid Hnames Hrefs.
  destruct (construct_cubes_facts_keys w self d Hfile Hvalid ks refs
              Hnames Hrefs) as (cube & facts & Hc & Hf & Hkeys).
  exists cube, facts. repeat split; try done.
  - intros i. apply zip_lookup.
  - apply zip_length.
  - intros Hdistinct. rewrite Hkeys.
    apply (dict_insert_all_distinct []). simpl.
    by apply distinct_keys_zip.
Qed.

Lemma facts_keys_pairing_labster :
  ∃ cube facts,
    outcome (construct_cubes (default_parser (world_of labster))
               (world_of labster)) = Ok [cube]
    ∧ Cube.facts cube = [facts]
    ∧ Facts.keys facts = [(SStr "departement_id", YStr "orgunit.id")].
Proof.
  destruct (facts_keys_pairing (world_of labster)
              (default_parser (world_of labster)) labster
              [SStr "departement_id"] [YStr "orgunit.id"])
    as (cube & facts & Hc & Hf & Hkeys & _); try reflexivity.
  exists cube, facts. repeat split; assumption.
Defined.

(** C3 (as amended). For a dimension entry that declares a [columns]
    sequence, the built [Dimension.columns] is the [OrderedDict] filled, in
    declaration order, with the pairs (name, [column_new_name] when
    supplied, else the name): when the names are pairwise distinct it is
    exactly that list of pairs, in declaration order, and in general a name
    is sent to the display name of the last column declared with it. For an
    entry without a [columns] key, [Dimension.columns] is the empty
    dictionary. *)
Theorem dimension_columns_ordered
    (w : world) (self : ConfigParser) (d : yaml)
    (entries_ : list yaml) (i : nat) (entry : yaml) :
  holds w self d → valid_document d = true →
  getitem d "dimensions" = Ok (YSeq entries_) → entries_ !! i = Some entry →
  ∃ cube dim,
    outcome (construct_cubes self w) = Ok [cube]
    ∧ Cube.dimensions cube !! i = Some dim
    ∧ (∀ cols,
         getpath entry ["dimension"; "columns"] = Ok cols →
         ∃ l pairs,
           cols = YSeq l
           ∧ mapM column_entry l = Some pairs
           ∧ Dimension.columns dim = OrderedDict (dict_insert_all [] pairs)
           ∧ (distinct_keys pairs.*1 = true →
              Dimension.columns dim = OrderedDict pairs)
           ∧ (∀ before k v after,
                pairs = before ++ (k, v) :: after →
                existsb (py_eqb k) after.*1 = false →
                dict_get k (entries (Dimension.columns dim)) = Some v))
    ∧ (getpath entry ["dimension"; "columns"] = Raise (KeyError "columns") →
       Dimension.columns dim = PlainDict []).
Proof.
  intros Hfile Hvalid Hdims Hentry.
  destruct (construct_cubes_dimension w self d entries_ i entry
              Hfile Hvalid Hdims Hentry)
    as (cube & dim & Hc & Hdim & Hbuild & Hv).
  exists cube, dim. repeat split; try done.
  - intros cols Hcols.
    destruct (build_dimension_valid entry Hv)
      as (n & dn & c & _ & _ & Hbuild' & Hcolumns).
    rewrite Hbuild in Hbuild'. injection Hbuild' as ->.
    rewrite Hcols in Hcolumns. destruct Hcolumns as (l & pairs & -> & Hp & ->).
    exists l, pairs. repeat split; try done.
    + intros Hdistinct. simpl. f_equal.
      by apply (dict_insert_all_distinct []).
    + intros before k v after -> Hlast. simpl.
      by apply dict_get_insert_all_last.
  - intros Hnone.
    destruct (build_dimension_valid entry Hv)
      as (n & dn & c & _ & _ & Hbuild' & Hcolumns).
    rewrite Hbuild in Hbuild'. injection Hbuild' as ->.
    by rewrite Hnone in Hcolumns.
Qed.

Lemma dimension_columns_ordered_labster :
  (∃ cube dim,
     outcome (construct_cubes (default_parser (world_of labster))
                (world_of labster)) = Ok [cube]
     ∧ Cube.dimensions cube !! 0 = Some dim
     ∧ Dimension.columns dim
       = OrderedDict [(SStr "type", YStr "type"); (SStr "nom", YStr "Name")])
  ∧ (∃ cube dim,
       outcome (construct_cubes (default_parser (world_of labster))
                  (world_of labster)) = Ok [cube]
       ∧ Cube.dimensions cube !! 1 = Some dim
       ∧ Dimension.columns dim = PlainDict []).
Proof.
  split.
  - destruct (dimension_columns_ordered (world_of labster)
                (default_parser (world_of labster)) labster
                [dimension_entry "orgunit" "Organisation"
                   (Some labster_columns);
                 dimension_entry "time" "Time" None] 0
                (dimension_entry "orgunit" "Organisation"
                   (Some labster_columns)))
      as (cube & dim & Hc & Hdim & Hcols & _); try reflexivity.
    exists cube, dim. repeat split; try assumption.
    destruct (Hcols (YSeq labster_columns))
      as (l & pairs & Hl & Hpairs & _ & Hdistinct & _); [reflexivity|].
    injection Hl as <-. injection Hpairs as <-.
    apply Hdistinct. reflexivity.
  - destruct (dimension_columns_ordered (world_of labster)
                (default_parser (world_of labster)) labster
                [dimension_entry "orgunit" "Organisation"
                   (Some labster_columns);
                 dimension_entry "time" "Time" None] 1
                (dimension_entry "time" "Time" None))
      as (cube & dim & Hc & Hdim & _ & Hnone); try reflexivity.
    exists cube, dim. repeat split; try assumption.
    apply Hnone. reflexivity.
Defined.

(** C3 as stated fails: with the column [nom] declared twice, first with
    the new name [Name], then without, the built mapping has the single
    entry [nom -> nom]; the name of the first column is not sent to its
    [column_new_name]. *)
Lemma dimension_columns_repeated_name :
  ∃ cube dim,
    outcome (construct_cubes (default_parser (world_of repeated_column_doc))
               (world_of repeated_column_doc)) = Ok [cube]
    ∧ Cube.dimensions cube = [dim]
    ∧ Dimension.columns dim = OrderedDict [(SStr "nom", YStr "nom")]
    ∧ ¬ sends_each_column repeated_columns (Dimension.columns dim).
Proof.
  eexists _, _. repeat split; try reflexivity.
  intros Hsends.
  specialize (Hsends (column "nom" (Some "Name")) (SStr "nom") (YStr "Name")).
  discriminate Hsends; [apply list_elem_of_here|reflexivity].
Qed.

(** C4 (as amended). [xmla_authentication()] returns [False] when the
    configuration file does not exist and when looking the key up in the
    decoded document fails (no such key, or a document that is not a
    mapping); it returns the boolean of the document when the key holds
    one. A file that cannot be opened or decoded is not absorbed: the
    error of [open] or of [yaml.load] reaches the caller. *)
Theorem xmla_authentication_flag (w : world) (self : ConfigParser) :
  (outcome (config_file_exists self w) = Ok false →
   xmla_authentication self w
   = ([EvIsFile (get_config_file_path self)], Ok (YBool false)))
  ∧ (∀ d e,
       holds w self d → getitem d "xmla_authentication" = Raise e →
       outcome (xmla_authentication self w) = Ok (YBool false))
  ∧ (∀ d b,
       holds w self d → getitem d "xmla_authentication" = Ok (YBool b) →
       outcome (xmla_authentication self w) = Ok (YBool b))
  ∧ (files w !! get_config_file_path self = Some (RegularFile true Malformed) →
     outcome (xmla_authentication self w) = Raise YAMLError)
  ∧ (∀ c,
       files w !! get_config_file_path self = Some (RegularFile false c) →
       outcome (xmla_authentication self w)
       = Raise (IOError EACCES (get_config_file_path self))).
Proof.
  repeat split.
  - rewrite config_file_exists_run. unfold outcome. simpl. intros [= H].
    unfold xmla_authentication, io_bind. rewrite config_file_exists_run.
    by rewrite H.
  - intros d e Hfile Hkey.
    rewrite (xmla_authentication_run w self d Hfile).
    unfold outcome. simpl. by rewrite Hkey.
  - intros d b Hfile Hkey.
    rewrite (xmla_authentication_run w self d Hfile).
    unfold outcome. simpl. by rewrite Hkey.
  - intros H. unfold xmla_authentication, io_bind.
    rewrite config_file_exists_run, H. unfold with_open, open.
    by rewrite H.
  - intros c H. unfold xmla_authentication, io_bind.
    rewrite config_file_exists_run, H. unfold with_open, open.
    by rewrite H.
Qed.

Lemma xmla_authentication_flag_samples :
  xmla_authentication (default_parser (world_with None)) (world_with None)
  = ([EvIsFile default_config_path], Ok (YBool false))
  ∧ outcome (xmla_authentication
               (default_parser (world_of (YMap labster_identity)))
               (world_of (YMap labster_identity))) = Ok (YBool false)
  ∧ outcome (xmla_authentication (default_parser (world_of labster))
               (world_of labster)) = Ok (YBool true)
  ∧ outcome (xmla_authentication
               (default_parser (world_with (Some (RegularFile true Malformed))))
               (world_with (Some (RegularFile true Malformed))))
    = Raise YAMLError
  ∧ outcome (xmla_authentication
               (default_parser (world_with (Some (RegularFile false Malformed))))
               (world_with (Some (RegularFile false Malformed))))
    = Raise (IOError EACCES default_config_path).
Proof.
  split; [|split; [|split; [|split]]].
  - apply (xmla_authentication_flag (world_with None)). reflexivity.
  - apply (proj1 (proj2 (xmla_authentication_flag
                           (world_of (YMap labster_identity)) _))
             (YMap labster_identity) (KeyError "xmla_authentication"));
      reflexivity.
  - apply (proj1 (proj2 (proj2 (xmla_authentication_flag
                                  (world_of labster) _))) labster true);
      reflexivity.
  - apply (xmla_authentication_flag
             (world_with (Some (RegularFile true Malformed)))). reflexivity.
  - apply (proj2 (proj2 (proj2 (proj2 (xmla_authentication_flag
             (world_with (Some (RegularFile false Malformed)))
             (default_parser
                (world_with (Some (RegularFile false Malformed))))))))
             Malformed). reflexivity.
Defined.

(** C4 as stated fails: a configuration file that exists but does not
    decode makes [xmla_authentication()] raise the decoder's error instead
    of returning [False]; and a flag that is not a boolean is returned as
    it is. *)
Lemma xmla_authentication_not_absorbed :
  outcome (xmla_authentication
             (default_parser (world_with (Some (RegularFile true Malformed))))
             (world_with (Some (RegularFile true Malformed))))
  = Raise YAMLError
  ∧ outcome (xmla_authentication (default_parser (world_of text_flag_doc))
               (world_of text_flag_doc)) = Ok (YStr "yes").
Proof. split; reflexivity. Qed.

(** C5 (as amended). The override variable [OLAPY_PATH], when set,
    replaces the home directory, not the whole path: in both cases the
    fixed sub-path [olapy-data/cubes] is appended to the chosen base
    directory (after a separator, unless the base is empty or ends with
    one). *)
Theorem get_cube_path_appends_subpath (w : world) :
  _get_cube_path w =
  let base := default (home w) (environ w !! "OLAPY_PATH") in
  base +:+ join_sep base +:+ "olapy-data/cubes".
Proof.
  unfold _get_cube_path. rewrite os_path_join_subpath.
  by destruct (environ w !! "OLAPY_PATH").
Qed.

(** C5 as stated fails: with [OLAPY_PATH=/srv/olap] the resolved path is
    [/srv/olap/olapy-data/cubes], not the value of the variable. *)
Lemma get_cube_path_override_not_exact :
  environ override_world !! "OLAPY_PATH" = Some "/srv/olap"
  ∧ _get_cube_path override_world = "/srv/olap/olapy-data/cubes"
  ∧ _get_cube_path override_world ≠ "/srv/olap".
Proof. repeat split; done. Qed.




(** C7. When no file exists at the configuration path, [construct_cubes()]
    raises [ValueError("Config file doesn't exist")]: no list of cubes is
    returned, and the only file-system operation performed is the
    existence check; the file is neither opened nor decoded. *)
Theorem construct_cubes_missing_file (w : world) (self : ConfigParser) :
  outcome (config_file_exists self w) = Ok false →
  construct_cubes self w
  = ([EvIsFile (get_config_file_path self)],
     Raise (ValueError "Config file doesn't exist"))
  ∧ (EvOpen (get_config_file_path self) ∉ trace (construct_cubes self w))
  ∧ (EvLoad (get_config_file_path self) ∉ trace (construct_cubes self w)).
Proof.
  intros Habsent. rewrite (construct_cubes_absent w self Habsent).
  unfold trace. simpl. repeat split; by intros [[=]|[]%elem_of_nil]%elem_of_cons.
Qed.

Lemma construct_cubes_missing_file_sample :
  construct_cubes (default_parser (world_with None)) (world_with None)
  = ([EvIsFile default_config_path],
     Raise (ValueError "Config file doesn't exist")).
Proof.
  apply (construct_cubes_missing_file (world_with None)
           (default_parser (world_with None))).
  reflexivity.
Defined.

(** C8 (as amended). On a document that is well-formed but for a missing
    top-level [name] or [source], [get_cubes_names()] raises
    [ValueError('missed name or source tags')], and [construct_cubes()]
    raises the [KeyError] of the first missing key. *)
Theorem missing_identity_errors
    (w : world) (self : ConfigParser) (d : yaml) :
  holds w self d → valid_body d = true →
  has_key "name" d && has_key "source" d = false →
  outcome (get_cubes_names self w)
  = Raise (ValueError "missed name or source tags")
  ∧ outcome (construct_cubes self w)
    = Raise (KeyError (if has_key "name" d then "source" else "name")).
Proof.
  intros Hfile Hbody Hmissing.
  rewrite (get_cubes_names_run w self d Hfile).
  rewrite (construct_cubes_run w self d Hfile).
  destruct (cubes_of_valid_body d Hbody) as (facts & dims & _ & _ & ->).
  unfold outcome. simpl.
  assert (∃ m, d = YMap m) as [m ->].
  { apply andb_true_iff in Hbody as [(x & Hx & _)%key_is_inv _].
    destruct d; try done. eauto. }
  unfold has_key, key_is in *. simpl in *.
  destruct (dict_get (SStr "name") m); simpl; [|done].
  destruct (dict_get (SStr "source") m); simpl; done.
Qed.

Lemma missing_identity_errors_sample :
  outcome (get_cubes_names (default_parser (world_of no_name_doc))
             (world_of no_name_doc))
  = Raise (ValueError "missed name or source tags")
  ∧ outcome (construct_cubes (default_parser (world_of no_name_doc))
               (world_of no_name_doc))
    = Raise (KeyError "name").
Proof.
  apply (missing_identity_errors (world_of no_name_doc)
           (default_parser (world_of no_name_doc)) no_name_doc);
    reflexivity.
Defined.

(** C8 as stated fails: without a top-level [name], the error of
    [get_cubes_names()] does not carry the message "missing name or
    source", and [construct_cubes()] raises a bare [KeyError]. *)
Lemma missing_identity_other_message :
  outcome (get_cubes_names (default_parser (world_of no_name_doc))
             (world_of no_name_doc))
  = Raise (ValueError "missed name or source tags")
  ∧ (outcome (get_cubes_names (default_parser (world_of no_name_doc))
                (world_of no_name_doc))
     ≠ Raise (ValueError "missing name or source"))
  ∧ outcome (construct_cubes (default_parser (world_of no_name_doc))
               (world_of no_name_doc))
    = Raise (KeyError "name").
Proof. split; [reflexivity|]. split; [discriminate|reflexivity]. Qed.

(** C9. [get_cubes_names()] opens the configuration file without checking
    that it exists: when nothing is at the configuration path, its only
    file-system operation is the failed [open], whose file-not-found error
    reaches the caller; it is neither the [ValueError] that
    [construct_cubes()] raises in the same state nor a default value. *)
Theorem get_cubes_names_no_existence_check
    (w : world) (self : ConfigParser) :
  files w !! get_config_file_path self = None →
  get_cubes_names self w
  = ([EvOpen (get_config_file_path self)],
     Raise (IOError ENOENT (get_config_file_path self)))
  ∧ (EvIsFile (get_config_file_path self) ∉ trace (get_cubes_names self w))
  ∧ outcome (construct_cubes self w)
    = Raise (ValueError "Config file doesn't exist").
Proof.
  intros Hnone.
  assert (get_cubes_names self w
          = ([EvOpen (get_config_file_path self)],
             Raise (IOError ENOENT (get_config_file_path self)))) as Hrun.
  { unfold get_cubes_names, with_open, open. by rewrite Hnone. }
  rewrite Hrun. repeat split.
  - unfold trace. simpl. by intros [[=]|[]%elem_of_nil]%elem_of_cons.
  - rewrite construct_cubes_absent; [done|].
    rewrite config_file_exists_run. by rewrite Hnone.
Qed.

Lemma get_cubes_names_no_existence_check_sample :
  get_cubes_names (default_parser (world_with None)) (world_with None)
  = ([EvOpen default_config_path],
     Raise (IOError ENOENT default_config_path)).
Proof.
  apply (get_cubes_names_no_existence_check (world_with None)
           (default_parser (world_with None))).
  reflexivity.
Defined.

(** C10. When [facts.keys.columns_names] lists a name more than once, the
    construction still succeeds, the [keys] of the built [Facts] has fewer
    entries than [columns_names] has elements, its keys are pairwise
    distinct, and a name is sent to the reference paired with its last
    occurrence. *)
Theorem facts_keys_repeated_name
    (w : world) (self : ConfigParser) (d : yaml)
    (ks : list scalar) (refs : list yaml) :
  holds w self d → valid_document d = true →
  getpath d ["facts"; "keys"; "columns_names"] = Ok (YSeq (YScalar <$> ks)) →
  getpath d ["facts"; "keys"; "refs"] = Ok (YSeq refs) →
  distinct_keys ks = false →
  ∃ cube facts,
    outcome (construct_cubes self w) = Ok [cube]
    ∧ Cube.facts cube = [facts]
    ∧ length (Facts.keys facts) < length ks
    ∧ distinct_keys (Facts.keys facts).*1 = true
    ∧ (∀ before k r after,
         zip ks refs = before ++ (k, r) :: after →
         existsb (py_eqb k) after.*1 = false →
         dict_get k (Facts.keys facts) = Some r).
Proof.
  intros Hfile Hvalid Hnames Hrefs Hrepeated.
  destruct (construct_cubes_facts_keys w self d Hfile Hvalid ks refs
              Hnames Hrefs) as (cube & facts & Hc & Hf & Hkeys).
  exists cube, facts. repeat split; try done; rewrite Hkeys.
  - apply (zip_repeated_length [] ks refs Hrepeated).
  - by apply dict_insert_all_unique.
  - intros before k r after -> Hlast.
    by apply dict_get_insert_all_last.
Qed.

Lemma facts_keys_repeated_name_sample :
  ∃ cube facts,
    outcome (construct_cubes (default_parser (world_of repeated_key_doc))
               (world_of repeated_key_doc)) = Ok [cube]
    ∧ Cube.facts cube = [facts]
    ∧ length (Facts.keys facts) < 4
    ∧ dict_get (SStr "departement_id") (Facts.keys facts)
      = Some (YStr "unit.id").
Proof.
  destruct (facts_keys_repeated_name (world_of repeated_key_doc)
              (default_parser (world_of repeated_key_doc)) repeated_key_doc
              repeated_key_names repeated_key_refs)
    as (cube & facts & Hc & Hf & Hlen & _ & Hlast); try reflexivity.
  exists cube, facts. repeat split; try assumption.
  apply (Hlast [(SStr "departement_id", YStr "orgunit.id");
                (SStr "site_id", YStr "site.id")] _ _ []); reflexivity.
Defined.

(** * Further properties of the parser *)

(** ** Where the configuration file is looked for *)

Lemma os_path_join_one a b :
  os_path_join a [b]
  = if starts_with_sep b then b else a +:+ join_sep a +:+ b.
Proof.
  unfold join_sep. simpl. destruct (starts_with_sep b); [done|].
  destruct (bool_decide (a = "") || ends_with_sep a); reflexivity.
Qed.

(** X1. A parser built with a non-empty [cube_path] looks for its file
    under that directory, whatever [OLAPY_PATH] and the home directory
    are: the path is [cube_path], a separator unless [cube_path] ends with
    one, and the file name. An absolute file name replaces the directory
    altogether. *)
Theorem explicit_cube_path
    (p file web : string) (w : world) :
  p ≠ "" →
  get_config_file_path (__init__ (Some p) file web w)
  = if starts_with_sep file then file
    else p +:+ (if ends_with_sep p then "" else "/") +:+ file.
Proof.
  intros Hp. unfold get_config_file_path, __init__.
  cbn [cube_path file_name].
  rewrite (bool_decide_false (p = "")) by done. rewrite os_path_join_one.
  unfold join_sep. by rewrite (bool_decide_false (p = "")) by done.
Qed.

Lemma explicit_cube_path_sample :
  get_config_file_path (data_parser override_world)
  = "/data/cubes/cubes-config.yml".
Proof.
  apply (explicit_cube_path "/data/cubes" default_file_name
           default_web_config_file_name override_world).
  discriminate.
Defined.

(** X2. A parser built without a [cube_path] ([None] or the empty string)
    and with the default file name reads
    [<base>/olapy-data/cubes/cubes-config.yml], where the base is the value
    of [OLAPY_PATH] when it is set and the home directory otherwise. *)
Theorem default_config_file_path
    (cp : option string) (web : string) (w : world) :
  cp = None ∨ cp = Some "" →
  get_config_file_path (__init__ cp default_file_name web w)
  = let base := default (home w) (environ w !! "OLAPY_PATH") in
    base +:+ join_sep base +:+ "olapy-data/cubes/cubes-config.yml".
Proof.
  intros Hcp.
  assert (cube_path (__init__ cp default_file_name web w) = _get_cube_path w)
    as Hcube by (by destruct Hcp as [-> | ->]).
  unfold get_config_file_path. rewrite Hcube. unfold _get_cube_path.
  rewrite os_path_join_subpath, os_path_join_one. simpl.
  set (base := match environ w !! "OLAPY_PATH" with
               | Some v => v
               | None => home w
               end).
  replace (default (home w) (environ w !! "OLAPY_PATH")) with base
    by (subst base; by destruct (environ w !! "OLAPY_PATH")).
  rewrite <- (append_assoc base (join_sep base) "olapy-data/cubes").
  unfold join_sep at 2.
  rewrite ends_with_sep_append by done.
  rewrite bool_decide_false by by apply append_nonempty.
  simpl. by rewrite !append_assoc.
Qed.

Lemma default_config_file_path_sample :
  get_config_file_path (default_parser override_world)
  = "/srv/olap/olapy-data/cubes/cubes-config.yml".
Proof.
  apply (default_config_file_path None default_web_config_file_name
           override_world).
  left. reflexivity.
Defined.

(** ** Files that open, and files that do not *)

(** X3. Whenever the configuration file can be opened, each of the three
    methods reads it exactly once and closes it, whether it decodes or
    not and whatever the document holds: the file is released on every
    exit path. *)
Theorem file_always_closed
    (w : world) (self : ConfigParser) (c : content) :
  files w !! get_config_file_path self = Some (RegularFile true c) →
  let path := get_config_file_path self in
  trace (construct_cubes self w)
  = [EvIsFile path; EvOpen path; EvLoad path; EvClose path]
  ∧ trace (get_cubes_names self w) = [EvOpen path; EvLoad path; EvClose path]
  ∧ trace (xmla_authentication self w)
    = [EvIsFile path; EvOpen path; EvLoad path; EvClose path].
Proof.
  intros Hfile path. subst path. destruct c as [d|].
  - rewrite (construct_cubes_run w self d Hfile).
    rewrite (get_cubes_names_run w self d Hfile).
    by rewrite (xmla_authentication_run w self d Hfile).
  - unfold construct_cubes, xmla_authentication, get_cubes_names, io_bind.
    rewrite config_file_exists_run, Hfile.
    unfold _construct_cubes_excel, io_bind, with_open, open.
    by rewrite Hfile.
Qed.

Lemma file_always_closed_sample :
  trace (construct_cubes
           (default_parser (world_with (Some (RegularFile true Malformed))))
           (world_with (Some (RegularFile true Malformed))))
  = [EvIsFile default_config_path; EvOpen default_config_path;
     EvLoad default_config_path; EvClose default_config_path].
Proof.
  apply (file_always_closed
           (world_with (Some (RegularFile true Malformed)))
           (default_parser (world_with (Some (RegularFile true Malformed))))
           Malformed).
  reflexivity.
Defined.

(** X4. A configuration file that exists but cannot be opened passes the
    existence check of [construct_cubes()]: the error of [open] reaches the
    caller, not the "Config file doesn't exist" error, and nothing is
    decoded. [get_cubes_names()] fails in the same way. *)
Theorem unreadable_file_raises
    (w : world) (self : ConfigParser) (c : content) :
  files w !! get_config_file_path self = Some (RegularFile false c) →
  let path := get_config_file_path self in
  construct_cubes self w
  = ([EvIsFile path; EvOpen path], Raise (IOError EACCES path))
  ∧ get_cubes_names self w = ([EvOpen path], Raise (IOError EACCES path)).
Proof.
  intros Hfile path. subst path.
  unfold construct_cubes, get_cubes_names, io_bind.
  rewrite config_file_exists_run, Hfile.
  unfold _construct_cubes_excel, io_bind, with_open, open.
  by rewrite Hfile.
Qed.

Lemma unreadable_file_raises_sample :
  construct_cubes
    (default_parser (world_with (Some (RegularFile false (Document labster)))))
    (world_with (Some (RegularFile false (Document labster))))
  = ([EvIsFile default_config_path; EvOpen default_config_path],
     Raise (IOError EACCES default_config_path)).
Proof.
  apply (unreadable_file_raises
           (world_with (Some (RegularFile false (Document labster))))
           (default_parser
              (world_with (Some (RegularFile false (Document labster)))))
           (Document labster)).
  reflexivity.
Defined.

(** X5. A configuration file that does not decode makes
    [construct_cubes()] and [get_cubes_names()] raise the decoder's error:
    [yaml.load] is called outside the [try] of [get_cubes_names()], so the
    error is not turned into its [ValueError]. *)
Theorem undecodable_file_raises (w : world) (self : ConfigParser) :
  files w !! get_config_file_path self = Some (RegularFile true Malformed) →
  outcome (construct_cubes self w) = Raise YAMLError
  ∧ outcome (get_cubes_names self w) = Raise YAMLError.
Proof.
  intros Hfile.
  unfold construct_cubes, get_cubes_names, io_bind.
  rewrite config_file_exists_run, Hfile.
  unfold _construct_cubes_excel, io_bind, with_open, open.
  by rewrite Hfile.
Qed.

Lemma undecodable_file_raises_sample :
  outcome (get_cubes_names
             (default_parser (world_with (Some (RegularFile true Malformed))))
             (world_with (Some (RegularFile true Malformed))))
  = Raise YAMLError.
Proof.
  apply (undecodable_file_raises
           (world_with (Some (RegularFile true Malformed)))
           (default_parser (world_with (Some (RegularFile true Malformed))))).
  reflexivity.
Defined.

(** X6. A directory at the configuration path counts as a missing file for
    [construct_cubes()] and [xmla_authentication()], which do not try to
    open it, while [get_cubes_names()] tries and gets the is-a-directory
    error of [open]. *)
Theorem directory_at_config_path (w : world) (self : ConfigParser) :
  files w !! get_config_file_path self = Some Directory →
  let path := get_config_file_path self in
  construct_cubes self w
  = ([EvIsFile path], Raise (ValueError "Config file doesn't exist"))
  ∧ xmla_authentication self w = ([EvIsFile path], Ok (YBool false))
  ∧ get_cubes_names self w = ([EvOpen path], Raise (IOError EISDIR path)).
Proof.
  intros Hfile path. subst path.
  unfold construct_cubes, xmla_authentication, get_cubes_names, io_bind.
  rewrite config_file_exists_run, Hfile.
  unfold with_open, open. by rewrite Hfile.
Qed.

Lemma directory_at_config_path_sample :
  get_cubes_names (default_parser (world_with (Some Directory)))
    (world_with (Some Directory))
  = ([EvOpen default_config_path], Raise (IOError EISDIR default_config_path)).
Proof.
  apply (directory_at_config_path (world_with (Some Directory))
           (default_parser (world_with (Some Directory)))).
  reflexivity.
Defined.

(** ** The names of the cubes and the authentication flag *)

(** X7. [get_cubes_names()] reads nothing but the two identity keys: when
    the document has a scalar top-level [name] and a [source], it returns
    the one-entry dictionary [{name: source}], whatever the rest of the
    document holds. *)
Theorem get_cubes_names_mapping
    (w : world) (self : ConfigParser) (d : yaml) (k : scalar) (v : yaml) :
  holds w self d →
  getitem d "name" = Ok (YScalar k) → getitem d "source" = Ok v →
  get_cubes_names self w
  = ([EvOpen (get_config_file_path self); EvLoad (get_config_file_path self);
      EvClose (get_config_file_path self)],
     Ok [(k, v)]).
Proof.
  intros Hfile Hname Hsource.
  rewrite (get_cubes_names_run w self d Hfile).
  by rewrite Hname, Hsource.
Qed.

Lemma get_cubes_names_mapping_sample :
  get_cubes_names (default_parser (world_of (YMap labster_identity)))
    (world_of (YMap labster_identity))
  = ([EvOpen default_config_path; EvLoad default_config_path;
      EvClose default_config_path],
     Ok [(SStr "labster", YStr "csv")]).
Proof.
  apply (get_cubes_names_mapping (world_of (YMap labster_identity))
           (default_parser (world_of (YMap labster_identity)))
           (YMap labster_identity) (SStr "labster") (YStr "csv"));
    reflexivity.
Defined.

(** X8. Once the file is decoded, [get_cubes_names()] has two outcomes
    only: the one-entry dictionary of a document with a scalar [name] and
    a [source], or [ValueError('missed name or source tags')]; the
    [KeyError] or [TypeError] of a lookup never reaches the caller. *)
Theorem get_cubes_names_outcomes
    (w : world) (self : ConfigParser) (d : yaml) :
  holds w self d →
  (∃ k v, getitem d "name" = Ok (YScalar k)
          ∧ getitem d "source" = Ok v
          ∧ outcome (get_cubes_names self w) = Ok [(k, v)])
  ∨ outcome (get_cubes_names self w)
    = Raise (ValueError "missed name or source tags").
Proof.
  intros Hfile.
  rewrite (get_cubes_names_run w self d Hfile). unfold outcome. cbn [snd].
  destruct (getitem d "name") as [n|e]; [|by right].
  destruct (getitem d "source") as [v|e]; [|by right].
  destruct n as [k|l|m]; [left; by exists k, v|by right..].
Qed.

Lemma get_cubes_names_outcomes_sample :
  (∃ k v, getitem (YScalar SNone) "name" = Ok (YScalar k)
          ∧ getitem (YScalar SNone) "source" = Ok v
          ∧ outcome (get_cubes_names (default_parser (world_of (YScalar SNone)))
                       (world_of (YScalar SNone))) = Ok [(k, v)])
  ∨ outcome (get_cubes_names (default_parser (world_of (YScalar SNone)))
               (world_of (YScalar SNone)))
    = Raise (ValueError "missed name or source tags").
Proof.
  apply (get_cubes_names_outcomes (world_of (YScalar SNone))
           (default_parser (world_of (YScalar SNone))) (YScalar SNone)).
  reflexivity.
Defined.

(** X9. Once the file is decoded, [xmla_authentication()] never raises:
    it returns the value of the [xmla_authentication] key as it is,
    boolean or not, and [False] when the lookup fails. *)
Theorem xmla_authentication_returns
    (w : world) (self : ConfigParser) (d : yaml) :
  holds w self d →
  (∀ v, getitem d "xmla_authentication" = Ok v →
        outcome (xmla_authentication self w) = Ok v)
  ∧ (∀ e, getitem d "xmla_authentication" = Raise e →
          outcome (xmla_authentication self w) = Ok (YBool false))
  ∧ (∀ e, outcome (xmla_authentication self w) ≠ Raise e).
Proof.
  intros Hfile.
  rewrite (xmla_authentication_run w self d Hfile). unfold outcome. cbn [snd].
  split; [|split].
  - by intros v ->.
  - by intros e ->.
  - intros e. by destruct (getitem d "xmla_authentication").
Qed.

Lemma xmla_authentication_returns_sample :
  outcome (xmla_authentication (default_parser (world_of text_flag_doc))
             (world_of text_flag_doc)) = Ok (YStr "yes")
  ∧ outcome (xmla_authentication
               (default_parser (world_of (YMap labster_identity)))
               (world_of (YMap labster_identity))) = Ok (YBool false).
Proof.
  split.
  - apply (xmla_authentication_returns (world_of text_flag_doc)
             (default_parser (world_of text_flag_doc)) text_flag_doc);
      reflexivity.
  - destruct (xmla_authentication_returns (world_of (YMap labster_identity))
                (default_parser (world_of (YMap labster_identity)))
                (YMap labster_identity)) as (_ & Hfails & _); [reflexivity|].
    apply (Hfails (KeyError "xmla_authentication")). reflexivity.
Defined.

(** X10. A configuration file whose document is not a mapping (an empty
    file decodes to [None]) makes [construct_cubes()] raise [TypeError] and
    [get_cubes_names()] raise its [ValueError], while
    [xmla_authentication()] returns [False]. *)
Theorem document_not_a_mapping
    (w : world) (self : ConfigParser) (d : yaml) :
  holds w self d → (∀ m, d ≠ YMap m) →
  outcome (construct_cubes self w) = Raise TypeError
  ∧ outcome (get_cubes_names self w)
    = Raise (ValueError "missed name or source tags")
  ∧ outcome (xmla_authentication self w) = Ok (YBool false).
Proof.
  intros Hfile Hd.
  assert (∀ k, getitem d k = Raise TypeError) as Hget.
  { intros k. destruct d as [s|l|m]; try done. by destruct (Hd m). }
  rewrite (construct_cubes_run w self d Hfile).
  rewrite (get_cubes_names_run w self d Hfile).
  rewrite (xmla_authentication_run w self d Hfile).
  unfold outcome. cbn [snd]. rewrite !Hget.
  repeat split. unfold cubes_of, build_facts. cbn [getpath].
  by rewrite (Hget "facts").
Qed.

Lemma document_not_a_mapping_sample :
  outcome (construct_cubes (default_parser (world_of (YScalar SNone)))
             (world_of (YScalar SNone))) = Raise TypeError.
Proof.
  apply (document_not_a_mapping (world_of (YScalar SNone))
           (default_parser (world_of (YScalar SNone))) (YScalar SNone));
    [reflexivity|discriminate].
Defined.

(** ** What the built model holds *)

Lemma for_each_length {A B} (f : A → result B) xs ys :
  for_each f xs = Ok ys → length ys = length xs.
Proof.
  revert ys. induction xs as [|x xs IH]; intros ys Hys; simpl in Hys.
  - by injection Hys as <-.
  - apply bind_Ok_inv in Hys as (y & _ & Hys).
    apply bind_Ok_inv in Hys as (ys' & Hys' & [= <-]).
    simpl. f_equal. by apply IH.
Qed.

Lemma chars_char_keys s : chars s = YScalar <$> char_keys s.
Proof. induction s as [|c s IH]; simpl; [done|]. by rewrite IH. Qed.

(** The order of the keys: that of their first insertion. *)
Lemma dict_insert_all_keys d (l : list (scalar * yaml)) :
  (dict_insert_all d l).*1 = d.*1 ++ fresh_keys d.*1 l.*1.
Proof.
  revert d. induction l as [|[k v] l IH]; intros d.
  - by rewrite app_nil_r.
  - rewrite dict_insert_all_cons, IH, dict_set_keys, dict_mem_existsb.
    rewrite fmap_cons. cbn [fst fresh_keys].
    destruct (existsb (py_eqb k) d.*1); [done|].
    by rewrite <- app_assoc.
Qed.

(** X11. The [Facts] of the built cube carries [facts.table_name] and
    [facts.measures] of the document as they are, and it is the only
    element of [Cube.facts]. *)
Theorem facts_fields_verbatim
    (w : world) (self : ConfigParser) (d table_name measures : yaml) :
  holds w self d → valid_document d = true →
  getpath d ["facts"; "table_name"] = Ok table_name →
  getpath d ["facts"; "measures"] = Ok measures →
  ∃ cube facts,
    outcome (construct_cubes self w) = Ok [cube]
    ∧ Cube.facts cube = [facts]
    ∧ Facts.table_name facts = table_name
    ∧ Facts.measures facts = measures.
Proof.
  intros Hfile Hvalid Htable Hmeasures.
  destruct (construct_cubes_valid w self d Hfile Hvalid)
    as (n & s & facts & dims & _ & _ & Hf & _ & Hc).
  exists (Cube.make n s [facts] dims), facts. repeat split; try done.
  all: unfold valid_document, valid_body in Hvalid.
  all: apply andb_true_iff in Hvalid as [_ [Hfacts _]%andb_true_iff].
  all: apply key_is_inv in Hfacts as (fs & Hfs & Hvf).
  all: destruct (build_facts_valid d fs Hfs Hvf)
         as (tn & ks & refs & ms & Htn & _ & _ & Hms & Hbuild).
  all: rewrite Hf in Hbuild; injection Hbuild as ->; simpl; congruence.
Qed.

Lemma facts_fields_verbatim_labster :
  ∃ cube facts,
    outcome (construct_cubes (default_parser (world_of labster))
               (world_of labster)) = Ok [cube]
    ∧ Cube.facts cube = [facts]
    ∧ Facts.table_name facts = YStr "stats_line"
    ∧ Facts.measures facts = YSeq [YStr "montant"; YStr "cout_total_mensuel"].
Proof.
  apply (facts_fields_verbatim (world_of labster)
           (default_parser (world_of labster)) labster); reflexivity.
Defined.

(** X12. The built cube has one [Dimension] per entry of [dimensions], in
    the order of the document, and each one carries the [name] and the
    [displayName] of its entry. *)
Theorem dimensions_in_order
    (w : world) (self : ConfigParser) (d : yaml) (entries_ : list yaml) :
  holds w self d → valid_document d = true →
  getitem d "dimensions" = Ok (YSeq entries_) →
  ∃ cube,
    outcome (construct_cubes self w) = Ok [cube]
    ∧ length (Cube.dimensions cube) = length entries_
    ∧ (∀ i entry,
         entries_ !! i = Some entry →
         ∃ dim,
           Cube.dimensions cube !! i = Some dim
           ∧ getpath entry ["dimension"; "name"] = Ok (Dimension.name dim)
           ∧ getpath entry ["dimension"; "displayName"]
             = Ok (Dimension.displayName dim)).
Proof.
  intros Hfile Hvalid Hdims.
  destruct (construct_cubes_valid w self d Hfile Hvalid)
    as (n & s & facts & dims & _ & _ & _ & Hd & Hc).
  exists (Cube.make n s [facts] dims). split; [done|].
  unfold build_dimensions in Hd. rewrite Hdims in Hd. simpl in Hd.
  split; [by apply (for_each_length build_dimension)|].
  intros i entry Hentry.
  destruct (for_each_lookup _ _ _ _ _ Hd Hentry) as (dim & Hdim & Hbuild).
  exists dim. split; [done|].
  unfold valid_document, valid_body in Hvalid.
  apply andb_true_iff in Hvalid as [_ [_ Hv]%andb_true_iff].
  apply key_is_inv in Hv as (x & Hx & Hseq).
  rewrite Hdims in Hx. injection Hx as <-.
  apply is_seq_of_inv in Hseq as (l & [= <-] & Hl).
  rewrite Forall_lookup in Hl. specialize (Hl i entry Hentry).
  destruct (build_dimension_valid entry Hl)
    as (nm & dn & c & Hnm & Hdn & Hbuild' & _).
  rewrite Hbuild in Hbuild'. by injection Hbuild' as ->.
Qed.

Lemma dimensions_in_order_labster :
  ∃ cube,
    outcome (construct_cubes (default_parser (world_of labster))
               (world_of labster)) = Ok [cube]
    ∧ length (Cube.dimensions cube) = 2
    ∧ ∃ dim, Cube.dimensions cube !! 1 = Some dim
             ∧ Dimension.name dim = YStr "time"
             ∧ Dimension.displayName dim = YStr "Time".
Proof.
  destruct (dimensions_in_order (world_of labster)
              (default_parser (world_of labster)) labster
              [dimension_entry "orgunit" "Organisation"
                 (Some labster_columns);
               dimension_entry "time" "Time" None])
    as (cube & Hc & Hlen & Hall); try reflexivity.
  exists cube. split; [assumption|]. split; [assumption|].
  destruct (Hall 1 (dimension_entry "time" "Time" None))
    as (dim & Hdim & Hname & Hdisplay); [reflexivity|].
  exists dim. split; [assumption|].
  injection Hname as <-. injection Hdisplay as <-. split; reflexivity.
Defined.

(** X13. [displayName] is mandatory: a dimension entry that has a [name]
    but no [displayName] makes [construct_cubes()] raise
    [KeyError('displayName')], also when the dimensions after it are
    well-formed and when the document lacks [name] and [source], which are
    looked up last. *)
Theorem missing_display_name
    (w : world) (self : ConfigParser) (d : yaml)
    (pre : list yaml) (entry : yaml) (post : list yaml) (inner : yaml) :
  holds w self d →
  key_is "facts" valid_facts d = true →
  getitem d "dimensions" = Ok (YSeq (pre ++ entry :: post)) →
  forallb valid_dimension pre = true →
  getitem entry "dimension" = Ok inner →
  has_key "name" inner = true → has_key "displayName" inner = false →
  outcome (construct_cubes self w) = Raise (KeyError "displayName").
Proof.
  intros Hfile Hfacts Hdims Hpre Hinner Hname Hdisplay.
  rewrite (construct_cubes_run w self d Hfile). unfold outcome. cbn [snd].
  apply key_is_inv in Hfacts as (fs & Hfs & Hvf).
  destruct (build_facts_valid d fs Hfs Hvf)
    as (tn & ks & refs & ms & _ & _ & _ & _ & Hbuild).
  unfold cubes_of. rewrite Hbuild, bind_Ok.
  unfold build_dimensions. rewrite Hdims, bind_Ok. cbn [py_iter].
  rewrite bind_Ok.
  destruct (for_each_build_dimension pre (forallb_Forall _ _ Hpre))
    as (dims & Hdims' & _).
  rewrite (for_each_first_failure build_dimension pre entry post dims
             (KeyError "displayName")); [done|done|].
  unfold build_dimension. cbn [getpath]. rewrite Hinner, !bind_Ok.
  apply key_is_inv in Hname as (n & Hn & _). rewrite Hn, !bind_Ok.
  unfold has_key, key_is in Hdisplay.
  destruct inner as [| |m]; try done. simpl in *.
  by destruct (dict_get (SStr "displayName") m).
Qed.

Lemma missing_display_name_sample :
  outcome (construct_cubes (default_parser (world_of no_display_name_doc))
             (world_of no_display_name_doc))
  = Raise (KeyError "displayName").
Proof.
  apply (missing_display_name (world_of no_display_name_doc)
           (default_parser (world_of no_display_name_doc))
           no_display_name_doc
           [dimension_entry "time" "Time" None] nameless_dimension
           [dimension_entry "site" "Site" None]
           (YMap [(SStr "name", YStr "orgunit")])); reflexivity.
Defined.

(** X14. A name of [columns_names] that is a sequence or a mapping cannot
    be a dictionary key: when it has a reference to be paired with,
    [construct_cubes()] raises [TypeError]. *)
Theorem unhashable_column_name
    (w : world) (self : ConfigParser) (d table_name : yaml)
    (names refs : list yaml) (i : nat) (x : yaml) :
  holds w self d →
  getpath d ["facts"; "table_name"] = Ok table_name →
  getpath d ["facts"; "keys"; "columns_names"] = Ok (YSeq names) →
  getpath d ["facts"; "keys"; "refs"] = Ok (YSeq refs) →
  names !! i = Some x → is_scalar x = false → i < length refs →
  outcome (construct_cubes self w) = Raise TypeError.
Proof.
  intros Hfile Htable Hnames Hrefs Hx Hscalar Hi.
  rewrite (construct_cubes_run w self d Hfile). unfold outcome. cbn [snd].
  unfold cubes_of, build_facts.
  rewrite Htable, Hnames, Hrefs, !bind_Ok. cbn [py_iter]. rewrite !bind_Ok.
  rewrite dict_update_unhashable; [done|].
  apply lookup_lt_is_Some in Hi as [r Hr].
  apply Exists_exists. exists (x, r). split; [|done].
  apply (list_elem_of_lookup_2 _ i). by rewrite zip_lookup, Hx, Hr.
Qed.

Lemma unhashable_column_name_sample :
  outcome (construct_cubes (default_parser (world_of list_name_doc))
             (world_of list_name_doc)) = Raise TypeError.
Proof.
  apply (unhashable_column_name (world_of list_name_doc)
           (default_parser (world_of list_name_doc)) list_name_doc
           (YStr "stats_line")
           [YStr "departement_id"; YSeq [YStr "site_id"]]
           [YStr "orgunit.id"; YStr "site.id"] 1 (YSeq [YStr "site_id"]));
    try reflexivity.
  simpl. lia.
Defined.

(** X15. [columns_names] written as a text instead of a sequence is not
    rejected: the text is iterated character by character, and the keys of
    the built [Facts] are its characters, paired with the references. *)
Theorem text_columns_names
    (w : world) (self : ConfigParser) (d table_name measures : yaml)
    (s : string) (refs : list yaml) :
  holds w self d →
  has_key "name" d = true → has_key "source" d = true →
  key_is "dimensions" (is_seq_of valid_dimension) d = true →
  getpath d ["facts"; "table_name"] = Ok table_name →
  getpath d ["facts"; "measures"] = Ok measures →
  getpath d ["facts"; "keys"; "columns_names"] = Ok (YStr s) →
  getpath d ["facts"; "keys"; "refs"] = Ok (YSeq refs) →
  ∃ cube facts,
    outcome (construct_cubes self w) = Ok [cube]
    ∧ Cube.facts cube = [facts]
    ∧ Facts.keys facts = dict_insert_all [] (zip (char_keys s) refs).
Proof.
  intros Hfile Hname Hsource Hdims Htable Hmeasures Hnames Hrefs.
  rewrite (construct_cubes_run w self d Hfile). unfold outcome. cbn [snd].
  apply key_is_inv in Hname as (n & Hn & _).
  apply key_is_inv in Hsource as (src & Hsrc & _).
  apply key_is_inv in Hdims as (ds & Hds & Hseq).
  apply is_seq_of_inv in Hseq as (l & -> & Hl).
  destruct (for_each_build_dimension l Hl) as (dims & Hdims & _).
  unfold cubes_of, build_facts, build_dimensions.
  rewrite Htable, Hnames, Hrefs, Hmeasures, !bind_Ok. cbn [py_iter].
  rewrite !bind_Ok, chars_char_keys, zip_fmap_l, dict_update_hashed.
  rewrite !bind_Ok, Hds, !bind_Ok. cbn [py_iter].
  rewrite !bind_Ok, Hdims, !bind_Ok, Hn, Hsrc, !bind_Ok.
  by eexists _, _.
Qed.

Lemma text_columns_names_sample :
  ∃ cube facts,
    outcome (construct_cubes (default_parser (world_of text_names_doc))
               (world_of text_names_doc)) = Ok [cube]
    ∧ Cube.facts cube = [facts]
    ∧ Facts.keys facts
      = [(SStr "a", YStr "orgunit.id"); (SStr "b", YStr "site.id")].
Proof.
  apply (text_columns_names (world_of text_names_doc)
           (default_parser (world_of text_names_doc)) text_names_doc
           (YStr "stats_line") (YSeq [YStr "montant"]) "ab"
           [YStr "orgunit.id"; YStr "site.id"]); reflexivity.
Defined.

(** X16. The columns of a built [Dimension] are ordered by first
    declaration: a column name declared again later does not move, and the
    keys of [Dimension.columns] are the declared names, each once, in the
    order in which they first occur. *)
Theorem columns_first_declaration_order
    (w : world) (self : ConfigParser) (d : yaml)
    (entries_ : list yaml) (i : nat) (entry : yaml)
    (cols : list yaml) (pairs : list (scalar * yaml)) :
  holds w self d → valid_document d = true →
  getitem d "dimensions" = Ok (YSeq entries_) → entries_ !! i = Some entry →
  getpath entry ["dimension"; "columns"] = Ok (YSeq cols) →
  mapM column_entry cols = Some pairs →
  ∃ cube dim,
    outcome (construct_cubes self w) = Ok [cube]
    ∧ Cube.dimensions cube !! i = Some dim
    ∧ (entries (Dimension.columns dim)).*1 = first_occurrences pairs.*1.
Proof.
  intros Hfile Hvalid Hdims Hentry Hcols Hpairs.
  destruct (construct_cubes_dimension w self d entries_ i entry
              Hfile Hvalid Hdims Hentry)
    as (cube & dim & Hc & Hdim & Hbuild & Hv).
  exists cube, dim. repeat split; try done.
  destruct (build_dimension_valid entry Hv)
    as (n & dn & c & _ & _ & Hbuild' & Hcolumns).
  rewrite Hbuild in Hbuild'. injection Hbuild' as ->.
  rewrite Hcols in Hcolumns.
  destruct Hcolumns as (l & pairs' & [= <-] & Hpairs' & ->).
  rewrite Hpairs in Hpairs'. injection Hpairs' as <-.
  simpl. apply (dict_insert_all_keys [] pairs).
Qed.

Lemma columns_first_declaration_order_sample :
  ∃ cube dim,
    outcome (construct_cubes (default_parser (world_of redeclared_column_doc))
               (world_of redeclared_column_doc)) = Ok [cube]
    ∧ Cube.dimensions cube !! 0 = Some dim
    ∧ (entries (Dimension.columns dim)).*1 = [SStr "nom"; SStr "type"].
Proof.
  apply (columns_first_declaration_order (world_of redeclared_column_doc)
           (default_parser (world_of redeclared_column_doc))
           redeclared_column_doc
           [dimension_entry "orgunit" "Organisation"
              (Some redeclared_columns)] 0
           (dimension_entry "orgunit" "Organisation"
              (Some redeclared_columns))
           redeclared_columns
           [(SStr "nom", YStr "nom"); (SStr "type", YStr "type");
            (SStr "nom", YStr "Name")]); reflexivity.
Defined.
